(** * concept02: the schedule controller and its toggle protocol

    A shallow embedding of [pkg/controller] (the schedule parser, the
    time-range test, the reconciliation loop, [ToggleDeployment] and
    [AttemptToggleDeployment]) and of the scaling and readiness handlers
    of [internal/service], followed by the properties of the specification
    that were checked against them and by further properties of the code.

    Go values are modelled as follows.
    - [string] is a byte string: Rocq's [string] (a list of [ascii]).
    - [map[string]string] is [option (gmap string string)]: [None] is the
      nil map, which can be read and deleted from but not assigned to.
    - [*int32] is [option Z]: [None] is the nil pointer.
    - a function returning [(T, error)] returns a [result T]; a run-time
      panic is the third constructor of [result].
    - the cluster API reached through [kubernetes.Interface] is an explicit
      state, [Clientset], threaded through every call. *)

From Stdlib Require Import ZArith Lia List Ascii String.
From stdpp Require Import base option gmap strings list.

Local Open Scope Z_scope.

(** ** Errors, panics and results *)

Inductive error : Type :=
  | ErrMissingAnnotation (key : string)   (* fmt.Errorf("could not find %s annotation", key) *)
  | ErrTimeParse (value : string)         (* *time.ParseError, carrying the parsed text *)
  | ErrAtoi (value : string)              (* *strconv.NumError *)
  | ErrNotFound                           (* API status error, reason NotFound *)
  | ErrConflict                           (* API status error, reason Conflict *)
  | ErrApi (msg : string)                 (* any other API error *)
  | ErrJson (msg : string)                (* a decoding error of encoding/json *)
  | ErrGetFailed (cause : error)          (* fmt.Errorf("Failed to get latest version of Deployment: %v", cause) *)
  | ErrUpdateFailed (cause : error).      (* fmt.Errorf("Update failed: %v", cause) *)

Inductive panic : Type :=
  | IndexOutOfRange (index : nat) (len : nat)
  | NilMapAssignment
  | NilDereference.

Inductive result (A : Type) : Type :=
  | Ok (a : A)
  | Err (e : error)
  | Panic (p : panic).

Arguments Ok {A} a.
Arguments Err {A} e.
Arguments Panic {A} p.

Definition isOk {A} (r : result A) : bool :=
  match r with Ok _ => true | _ => false end.

Definition isErr {A} (r : result A) : bool :=
  match r with Err _ => true | _ => false end.

Definition isPanic {A} (r : result A) : bool :=
  match r with Panic _ => true | _ => false end.

(** ** The parts of Go's standard library the controller calls *)

Module strings.

(** [strings.Split(s, sep)] for a one-byte separator: the pieces between
    the occurrences of [sep]; always at least one piece. *)
Fixpoint Split (s : string) (sep : ascii) : list string :=
  match s with
  | EmptyString => [EmptyString]
  | String c rest =>
      if Ascii.eqb c sep then EmptyString :: Split rest sep
      else match Split rest sep with
           | tok :: toks => String c tok :: toks
           | [] => [String c EmptyString]
           end
  end.

Fixpoint TrimLeft (s : string) (cut : ascii) : string :=
  match s with
  | EmptyString => EmptyString
  | String c rest => if Ascii.eqb c cut then TrimLeft rest cut else s
  end.

Fixpoint TrimRight (s : string) (cut : ascii) : string :=
  match s with
  | EmptyString => EmptyString
  | String c rest =>
      match TrimRight rest cut with
      | EmptyString => if Ascii.eqb c cut then EmptyString else String c EmptyString
      | rest' => String c rest'
      end
  end.

(** [strings.Trim(s, cutset)] for a one-byte cutset. *)
Definition Trim (s : string) (cut : ascii) : string :=
  TrimRight (TrimLeft s cut) cut.

Definition lowerByte (c : ascii) : ascii :=
  let n := nat_of_ascii c in
  if ((65 <=? n) && (n <=? 90))%nat then ascii_of_nat (n + 32) else c.

(** [strings.ToLower] on the ASCII letters.  The controller only compares
    the result with ["true"], whose letters no character outside ASCII
    lowers to, so the comparison is the one Go makes. *)
Fixpoint ToLower (s : string) : string :=
  match s with
  | EmptyString => EmptyString
  | String c rest => String (lowerByte c) (ToLower rest)
  end.

End strings.

Module strconv.

Definition isDigit (c : ascii) : bool :=
  let n := nat_of_ascii c in ((48 <=? n) && (n <=? 57))%nat.

Definition digitVal (c : ascii) : Z := Z.of_nat (nat_of_ascii c) - 48.

Definition digitChar (d : Z) : ascii := ascii_of_nat (Z.to_nat (d + 48)).

Definition minInt64 : Z := - 2 ^ 63.
Definition maxInt64 : Z := 2 ^ 63 - 1.

Fixpoint formatUint (fuel : nat) (u : Z) (acc : string) : string :=
  match fuel with
  | O => acc
  | S fuel' =>
      let acc' := String (digitChar (u mod 10)) acc in
      if u / 10 =? 0 then acc' else formatUint fuel' (u / 10) acc'
  end.

(** [strconv.Itoa]: the decimal text of an [int]; twenty digits cover
    every 64-bit value. *)
Definition Itoa (i : Z) : string :=
  if i <? 0 then String "-"%char (formatUint 20 (- i) EmptyString)
  else formatUint 20 i EmptyString.

Fixpoint parseDigits (s : string) (acc : Z) : option Z :=
  match s with
  | EmptyString => Some acc
  | String c rest =>
      if isDigit c then parseDigits rest (acc * 10 + digitVal c) else None
  end.

(** [strconv.Atoi]: an optional sign, then one or more decimal digits; a
    syntax error or a value outside [int] is a [*strconv.NumError]. *)
Definition Atoi (s : string) : result Z :=
  let '(neg, digits) :=
    match s with
    | String "+"%char rest => (false, rest)
    | String "-"%char rest => (true, rest)
    | _ => (false, s)
    end in
  match digits with
  | EmptyString => Err (ErrAtoi s)
  | _ =>
      match parseDigits digits 0 with
      | None => Err (ErrAtoi s)
      | Some n =>
          let v := if neg then - n else n in
          if (minInt64 <=? v) && (v <=? maxInt64) then Ok v else Err (ErrAtoi s)
      end
  end.

End strconv.

Module time.

(** A [time.Time] produced by the layout ["15:04"]: January 1 of year 0,
    UTC, at the given hour and minute.  Two such values are ordered by
    their minute of the day. *)
Record Time : Type := { Hour : Z; Minute : Z }.

(** The time written hh:mm. *)
Definition at_ (hh mm : Z) : Time := {| Hour := hh; Minute := mm |}.

Definition minuteOfDay (t : Time) : Z := Hour t * 60 + Minute t.

Definition Before (t u : Time) : bool := minuteOfDay t <? minuteOfDay u.
Definition After (t u : Time) : bool := minuteOfDay u <? minuteOfDay t.

(** [getnum(s, fixed)] of package time: one or two leading digits, two of
    them required when [fixed]. *)
Definition getnum (s : string) (fixed : bool) : option (Z * string) :=
  match s with
  | String c0 rest0 =>
      if strconv.isDigit c0 then
        match rest0 with
        | String c1 rest1 =>
            if strconv.isDigit c1
            then Some (strconv.digitVal c0 * 10 + strconv.digitVal c1, rest1)
            else if fixed then None else Some (strconv.digitVal c0, rest0)
        | EmptyString =>
            if fixed then None else Some (strconv.digitVal c0, rest0)
        end
      else None
  | EmptyString => None
  end.

(** [time.Parse("15:04", value)]: the hour (one or two digits, below 24),
    a colon, the minute (two digits, below 60), and nothing after. *)
Definition Parse_15_04 (value : string) : result Time :=
  match getnum value false with
  | None => Err (ErrTimeParse value)
  | Some (hour, rest) =>
      if (hour <? 0) || (24 <=? hour) then Err (ErrTimeParse value)
      else
        match rest with
        | String ":"%char rest' =>
            match getnum rest' true with
            | None => Err (ErrTimeParse value)
            | Some (min, rest'') =>
                if (min <? 0) || (60 <=? min) then Err (ErrTimeParse value)
                else
                  match rest'' with
                  | EmptyString => Ok {| Hour := hour; Minute := min |}
                  | _ => Err (ErrTimeParse value)
                  end
            end
        | _ => Err (ErrTimeParse value)
        end
  end.

(** [appendInt(b, x, 2)] of package time for a value below 100, as the
    hour and the minute of a [time.Time] are: two digits, zero padded. *)
Definition twoDigits (x : Z) : string :=
  String (strconv.digitChar (x / 10))
    (String (strconv.digitChar (x mod 10)) EmptyString).

(** [t.Format("15:04")] *)
Definition Format_15_04 (t : Time) : string :=
  (twoDigits (Hour t) ++ ":" ++ twoDigits (Minute t))%string.

End time.

(** Go's map operations on a possibly nil [map[string]string]. *)
Module gomap.

Definition get (m : option (gmap string string)) (k : string) : option string :=
  match m with
  | Some m' => m' !! k
  | None => None
  end.

Definition set (m : option (gmap string string)) (k v : string)
  : result (option (gmap string string)) :=
  match m with
  | Some m' => Ok (Some (<[k := v]> m'))
  | None => Panic NilMapAssignment
  end.

Definition del (m : option (gmap string string)) (k : string)
  : option (gmap string string) :=
  match m with
  | Some m' => Some (delete k m')
  | None => None
  end.

End gomap.


(** ** The cluster API behind [kubernetes.Interface]

    The model of the API server keeps what the controller reads and writes
    of a Deployment: its identity, its annotations and [Spec.Replicas]. *)

Record Deployment : Type := {
  Namespace : string;
  Name : string;
  Annotations : option (gmap string string);   (* ObjectMeta.Annotations *)
  Replicas : option Z                          (* Spec.Replicas, a *int32 *)
}.

Definition withAnnotations (d : Deployment) (a : option (gmap string string)) : Deployment :=
  {| Namespace := Namespace d; Name := Name d; Annotations := a; Replicas := Replicas d |}.

Definition withReplicas (d : Deployment) (r : option Z) : Deployment :=
  {| Namespace := Namespace d; Name := Name d; Annotations := Annotations d; Replicas := r |}.

(** What the API server answers to the next update call, when it is not a
    plain acceptance: a conflict (another writer, for instance the
    deployment controller writing the status, changed the object since it
    was read) or any other failure.  Neither changes the stored object. *)
Inductive UpdateReply : Type :=
  | ReplyConflict
  | ReplyFailure (msg : string).

(** The state of the cluster as seen through the client: the stored
    deployments by namespace and name, and the answers scripted for the
    coming update calls (an update past the end of the script is accepted).
    The state covers the runs in which the API server answers every
    fetch: a fetch is not recorded and fails only because the object is
    gone, and no other client changes the replicas or the annotations
    while a call is running.  The update calls are the observable ones:
    each consumes one scripted answer. *)
Record Clientset : Type := {
  objects : gmap (string * string) Deployment;
  replies : list (option UpdateReply)
}.

(** [clientset.AppsV1().Deployments(namespace).Get(ctx, name, opts)]: the
    object stored under that namespace and name, which its metadata carry;
    a NotFound error when there is none. *)
Definition Get (c : Clientset) (namespace name : string) : result Deployment :=
  match objects c !! (namespace, name) with
  | Some d =>
      Ok {| Namespace := namespace; Name := name;
            Annotations := Annotations d; Replicas := Replicas d |}
  | None => Err ErrNotFound
  end.

(** [clientset.AppsV1().Deployments(namespace).Update(ctx, d, opts)]: one
    scripted answer is consumed; an accepted update of an existing object
    replaces it. *)
Definition Update (c : Clientset) (namespace : string) (d : Deployment)
  : result unit * Clientset :=
  let c' := {| objects := objects c; replies := tail (replies c) |} in
  match head (replies c) with
  | Some (Some ReplyConflict) => (Err ErrConflict, c')
  | Some (Some (ReplyFailure msg)) => (Err (ErrApi msg), c')
  | _ =>
      match objects c !! (namespace, Name d) with
      | None => (Err ErrNotFound, c')
      | Some _ =>
          (Ok tt, {| objects := <[(namespace, Name d) := d]> (objects c);
                     replies := tail (replies c) |})
      end
  end.

(** [errors.IsConflict]: an error built with [fmt.Errorf] and [%v] does not
    wrap its cause, so only the API's own conflict error qualifies. *)
Definition IsConflict (e : error) : bool :=
  match e with
  | ErrConflict => true
  | _ => false
  end.

(** [retry.RetryOnConflict(backoff, fn)]: [fn] is run until it succeeds,
    fails with something else than a conflict, or [steps] attempts are
    used up, in which case the last conflict is returned. *)
Fixpoint RetryOnConflict (steps : nat) (lastErr : option error)
    (fn : Clientset -> result unit * Clientset) (c : Clientset)
  : result unit * Clientset :=
  match steps with
  | O =>
      match lastErr with
      | Some e => (Err e, c)
      | None => (Ok tt, c)
      end
  | S steps' =>
      match fn c with
      | (Ok tt, c') => (Ok tt, c')
      | (Err e, c') =>
          if IsConflict e then RetryOnConflict steps' (Some e) fn c'
          else (Err e, c')
      | (Panic p, c') => (Panic p, c')
      end
  end.

(** [retry.DefaultRetry.Steps] *)
Definition DefaultRetrySteps : nat := 5.

(** [int32(i)] for an [int] *)
Definition int32 (i : Z) : Z := (i + 2 ^ 31) mod 2 ^ 32 - 2 ^ 31.

(** ** Package controller *)

Module controller.

Definition REPLICAS_MEMORY_ANNOTATION : string := "scheduler.replicas-memory".
Definition SCHEDULE_ANNOTATION : string := "scheduler.off-schedule".
Definition ENABLED_ANNOTATION : string := "scheduler.enabled".

(** [type DeploymentState bool] *)
Definition DeploymentState : Type := bool.
Definition ENABLED : DeploymentState := true.
Definition DISABLED : DeploymentState := false.

Record TimeRange : Type := { Start : time.Time; End : time.Time }.

(** [TimeRange.InRangeNow]; [now] is the value of
    [time.Parse("15:04", time.Now().Format("15:04"))], the hour and the
    minute of the wall clock. *)
Definition InRangeNow (t : TimeRange) (now : time.Time) : bool :=
  if time.Before (End t) (Start t)
  then time.After now (Start t) || time.Before now (End t)
  else time.After now (Start t) && time.Before now (End t).

(** The function passed to [retry.RetryOnConflict] by [ToggleDeployment]:
    one fetch, the change of the fetched copy, one update. *)
Definition toggleAttempt (namespace deployment : string)
    (targetState : DeploymentState) (c : Clientset) : result unit * Clientset :=
  match Get c namespace deployment with
  | Panic p => (Panic p, c)
  | Err getErr => (Err (ErrGetFailed getErr), c)
  | Ok deploymentObj =>
      match Replicas deploymentObj with
      | None => (Panic NilDereference, c)
      | Some replicas =>
          (* Memorize current replicas number *)
          match (if negb (replicas =? 0)
                 then gomap.set (Annotations deploymentObj)
                        REPLICAS_MEMORY_ANNOTATION (strconv.Itoa replicas)
                 else Ok (Annotations deploymentObj)) with
          | Panic p => (Panic p, c)
          | Err e => (Err e, c)
          | Ok annotations =>
              let deploymentObj := withAnnotations deploymentObj annotations in
              (* Set the new replicas number *)
              if Bool.eqb targetState DISABLED then
                if replicas =? 0 then (Ok tt, c)
                else Update c namespace (withReplicas deploymentObj (Some 0))
              else
                if negb (replicas =? 0) then (Ok tt, c)
                else
                  match gomap.get annotations REPLICAS_MEMORY_ANNOTATION with
                  | Some value =>
                      match strconv.Atoi value with
                      | Panic p => (Panic p, c)
                      | Err err => (Err err, c)
                      | Ok i =>
                          Update c namespace
                            (withAnnotations
                               (withReplicas deploymentObj (Some (int32 i)))
                               (gomap.del annotations REPLICAS_MEMORY_ANNOTATION))
                      end
                  | None => Update c namespace deploymentObj
                  end
          end
      end
  end.

(** [ToggleDeployment] *)
Definition ToggleDeployment (clientset : Clientset) (namespace deployment : string)
    (targetState : DeploymentState) : result unit * Clientset :=
  match RetryOnConflict DefaultRetrySteps None
          (toggleAttempt namespace deployment targetState) clientset with
  | (Ok tt, c) => (Ok tt, c)
  | (Err retryErr, c) => (Err (ErrUpdateFailed retryErr), c)
  | (Panic p, c) => (Panic p, c)
  end.

(** [AttemptToggleDeployment]; the deployment is passed by pointer and
    changed in place, so the changed object is returned with the result. *)
Definition AttemptToggleDeployment (clientset : Clientset) (deployment : Deployment)
    (targetState : DeploymentState) : result unit * Deployment * Clientset :=
  let namespace := Namespace deployment in
  match Replicas deployment with
  | None => (Panic NilDereference, deployment, clientset)
  | Some replicas =>
      (* Memorize current replicas number *)
      match (if negb (replicas =? 0)
             then gomap.set (Annotations deployment)
                    REPLICAS_MEMORY_ANNOTATION (strconv.Itoa replicas)
             else Ok (Annotations deployment)) with
      | Panic p => (Panic p, deployment, clientset)
      | Err e => (Err e, deployment, clientset)
      | Ok annotations =>
          let deployment := withAnnotations deployment annotations in
          (* Set the new replicas number *)
          if Bool.eqb targetState DISABLED then
            if replicas =? 0 then (Ok tt, deployment, clientset)
            else
              let deployment := withReplicas deployment (Some 0) in
              let '(updateErr, c) := Update clientset namespace deployment in
              (updateErr, deployment, c)
          else
            if negb (replicas =? 0) then (Ok tt, deployment, clientset)
            else
              match gomap.get annotations REPLICAS_MEMORY_ANNOTATION with
              | Some value =>
                  match strconv.Atoi value with
                  | Panic p => (Panic p, deployment, clientset)
                  | Err err => (Err err, deployment, clientset)
                  | Ok i =>
                      let deployment :=
                        withAnnotations
                          (withReplicas deployment (Some (int32 i)))
                          (gomap.del annotations REPLICAS_MEMORY_ANNOTATION) in
                      let '(updateErr, c) := Update clientset namespace deployment in
                      (updateErr, deployment, c)
                  end
              | None =>
                  let '(updateErr, c) := Update clientset namespace deployment in
                  (updateErr, deployment, c)
              end
      end
  end.

(** [Controller.parseScheduleAnnotation] *)
Definition parseScheduleAnnotation (annotations : option (gmap string string))
  : result TimeRange :=
  match gomap.get annotations SCHEDULE_ANNOTATION with
  | None => Err (ErrMissingAnnotation SCHEDULE_ANNOTATION)
  | Some scheduleText =>
      let tokens := strings.Split scheduleText "-" in
      match tokens !! 0%nat with
      | None => Panic (IndexOutOfRange 0 (length tokens))
      | Some token0 =>
          match time.Parse_15_04 (strings.Trim token0 " ") with
          | Panic p => Panic p
          | Err err => Err err
          | Ok start =>
              match tokens !! 1%nat with
              | None => Panic (IndexOutOfRange 1 (length tokens))
              | Some token1 =>
                  match time.Parse_15_04 (strings.Trim token1 " ") with
                  | Panic p => Panic p
                  | Err err => Err err
                  | Ok end_ => Ok {| Start := start; End := end_ |}
                  end
              end
          end
      end
  end.

(** The informer's indexer: the keys it lists and what it answers for a
    key (an error, no such object, or the cached object). *)
Inductive Lookup : Type :=
  | LookupError
  | LookupAbsent
  | LookupFound (object : Deployment).

Record Indexer : Type := {
  ListKeys : list string;
  GetByKey : string -> Lookup
}.

(** The lines that [loopIteration] itself writes to the log.  The lines
    that [ToggleDeployment] writes while it is called ("Scaling down
    deployment ...", "Scaling up deployment ...") are not recorded. *)
Inductive LogEntry : Type :=
  | LogLookupError (deploymentName : string)   (* slog.Error("Error while checking deployment ...") *)
  | LogChecking (deploymentName : string)      (* slog.Info("Checking deployment ...") *)
  | LogError (e : error).                      (* slog.Error(fmt.Sprintf("%s", err)) *)

(** The body of the [for] loop of [loopIteration] over the listed keys.
    The wall clock [now] is taken as fixed during one tick.  A panic ends
    the tick; the cluster is returned as it was at that point. *)
Fixpoint loopKeys (now : time.Time) (indexer : Indexer) (keys : list string)
    (c : Clientset) (log : list LogEntry)
  : result unit * Clientset * list LogEntry :=
  match keys with
  | [] => (Ok tt, c, log)
  | deploymentName :: keys' =>
      match GetByKey indexer deploymentName with
      | LookupError =>
          loopKeys now indexer keys' c (log ++ [LogLookupError deploymentName])
      | LookupAbsent => loopKeys now indexer keys' c log
      | LookupFound object =>
          (* Check deployment's annotation *)
          let annotations := Annotations object in
          match gomap.get annotations ENABLED_ANNOTATION with
          | None => loopKeys now indexer keys' c log
          | Some value =>
              if negb (String.eqb (strings.ToLower value) "true")
              then loopKeys now indexer keys' c log
              else
                (* Check deployment *)
                let log := log ++ [LogChecking deploymentName] in
                match parseScheduleAnnotation annotations with
                | Panic p => (Panic p, c, log)
                | Err err => loopKeys now indexer keys' c (log ++ [LogError err])
                | Ok schedule =>
                    if InRangeNow schedule now then
                      match ToggleDeployment c (Namespace object) (Name object) DISABLED with
                      | (Panic p, c') => (Panic p, c', log)
                      | (Err err, c') =>
                          loopKeys now indexer keys' c' (log ++ [LogError err])
                      | (Ok tt, c') => loopKeys now indexer keys' c' log
                      end
                    else
                      match ToggleDeployment c (Namespace object) (Name object) ENABLED with
                      | (Panic p, c') => (Panic p, c', log)
                      | (Err err, c') =>
                          loopKeys now indexer keys' c' (log ++ [LogError err])
                      | (Ok tt, c') => loopKeys now indexer keys' c' log
                      end
                end
          end
      end
  end.

(** [Controller.loopIteration]: one tick of the reconciliation loop. *)
Definition loopIteration (now : time.Time) (indexer : Indexer) (c : Clientset)
  : result unit * Clientset * list LogEntry :=
  loopKeys now indexer (ListKeys indexer) c [].

End controller.

(** ** Package service: the two scaling handlers *)

Module service.

Record JsonResourceSpecifier : Type := {
  jsonNamespace : string;   (* Namespace, json:"namespace" *)
  jsonName : string         (* Name, json:"name" *)
}.

(** The request as the handlers use it: the method, and the body, which
    is nil, does not decode, or decodes to a resource specifier. *)
Inductive RequestBody : Type :=
  | NilBody
  | Undecodable (err : error)
  | Decoded (d : JsonResourceSpecifier).

Record Request : Type := { Method : string; Body : RequestBody }.

(** What was written on the response: the status code, fixed by the
    first write, and the lines of the body. *)
Inductive Line : Type :=
  | Text (s : string)
  | ErrorText (e : error).   (* err.Error() *)

Record ResponseWriter : Type := { status : option Z; body : list Line }.

Definition newResponse : ResponseWriter := {| status := None; body := [] |}.

Definition StatusOK : Z := 200.
Definition StatusBadRequest : Z := 400.
Definition StatusInternalServerError : Z := 500.
Definition StatusNotImplemented : Z := 501.

(** [w.WriteHeader(code)]: ignored once a status has been written. *)
Definition WriteHeader (w : ResponseWriter) (code : Z) : ResponseWriter :=
  match status w with
  | Some _ => w
  | None => {| status := Some code; body := body w |}
  end.

(** [fmt.Fprintln(w, line)]: the first write fixes the status to 200 when
    none was written. *)
Definition Fprintln (w : ResponseWriter) (line : Line) : ResponseWriter :=
  let w := WriteHeader w StatusOK in
  {| status := status w; body := body w ++ [line] |}.

(** [http.Error(w, msg, code)] *)
Definition httpError (w : ResponseWriter) (msg : Line) (code : Z) : ResponseWriter :=
  Fprintln (WriteHeader w code) msg.

(** The handler of [/scaleDown].  [configErr] is the error of
    [controller.LoadK8SClientConfigFile], if any; [world] is the cluster
    the loaded client talks to. *)
Definition scaleDown (configErr : option error) (world : Clientset)
    (r : Request) (w : ResponseWriter) : result unit * ResponseWriter * Clientset :=
  let w := if negb (String.eqb (Method r) "POST")
           then WriteHeader w StatusNotImplemented else w in
  match Body r with
  | NilBody =>
      (Ok tt, httpError w (Text "Please send a request body") StatusBadRequest, world)
  | Undecodable err => (Ok tt, httpError w (ErrorText err) StatusBadRequest, world)
  | Decoded d =>
      match configErr with
      | Some err =>
          (Ok tt, httpError w (ErrorText err) StatusInternalServerError, world)
      | None =>
          match controller.ToggleDeployment world (jsonNamespace d) (jsonName d)
                  controller.DISABLED with
          | (Panic p, world') => (Panic p, w, world')
          | (Err err, world') =>
              (Ok tt, httpError w (ErrorText err) StatusInternalServerError, world')
          | (Ok tt, world') => (Ok tt, Fprintln w (Text "Request received"), world')
          end
      end
  end.

(** The handler of [/scaleUp]. *)
Definition scaleUp (configErr : option error) (world : Clientset)
    (r : Request) (w : ResponseWriter) : result unit * ResponseWriter * Clientset :=
  let w := if negb (String.eqb (Method r) "POST")
           then WriteHeader w StatusNotImplemented else w in
  match Body r with
  | NilBody =>
      (Ok tt, httpError w (Text "Please send a request body") StatusBadRequest, world)
  | Undecodable err => (Ok tt, httpError w (ErrorText err) StatusBadRequest, world)
  | Decoded d =>
      match configErr with
      | Some err =>
          (Ok tt, httpError w (ErrorText err) StatusInternalServerError, world)
      | None =>
          match controller.ToggleDeployment world (jsonNamespace d) (jsonName d)
                  controller.ENABLED with
          | (Panic p, world') => (Panic p, w, world')
          | (Err err, world') =>
              (Ok tt, httpError w (ErrorText err) StatusInternalServerError, world')
          | (Ok tt, world') =>
              (Ok tt, Fprintln (WriteHeader w StatusOK) (Text "Request received"), world')
          end
      end
  end.

Definition StatusServiceUnavailable : Z := 503.

(** The handler of [/readiness] and [/readiness/]: [serverReady] is the
    field of the service it reads and writes, [method] and [path] are
    [r.Method] and [r.URL.Path]. *)
Definition readinessHandler (serverReady : bool) (method path : string)
    (w : ResponseWriter) : bool * ResponseWriter :=
  let serverReady :=
    if String.eqb method "POST" then
      if String.eqb path "/readiness/ready" then true
      else if String.eqb path "/readiness/notready" then false
      else serverReady
    else serverReady in
  if serverReady
  then (serverReady, Fprintln (WriteHeader w StatusOK) (Text "OK"))
  else (serverReady, Fprintln (WriteHeader w StatusServiceUnavailable) (Text "NOT OK")).

(** What bears on the readiness of the running service, in order: a
    readiness request is served, on a response of its own, or
    [RunForever] receives the termination signal and sets [serverReady]
    to false, the server still serving until it is shut down. *)
Inductive ReadinessEvent : Type :=
  | ReadinessRequest (method path : string)
  | TerminationSignal.

Fixpoint serveReadiness (serverReady : bool) (events : list ReadinessEvent)
  : bool * list ResponseWriter :=
  match events with
  | [] => (serverReady, [])
  | ReadinessRequest method path :: rest =>
      let '(serverReady', w) := readinessHandler serverReady method path newResponse in
      let '(final, ws) := serveReadiness serverReady' rest in
      (final, w :: ws)
  | TerminationSignal :: rest => serveReadiness false rest
  end.

End service.

(** ** Inputs of the examples *)

Module sample.

Import controller.

(** Annotations holding only the schedule. *)
Definition scheduleOf (text : string) : option (gmap string string) :=
  Some {[ SCHEDULE_ANNOTATION := text ]}.

(** A workload under scheduler control. *)
Definition scheduled (name text : string) (replicas : Z) : Deployment :=
  {| Namespace := "default"; Name := name;
     Annotations := Some (<[ENABLED_ANNOTATION := "true"]>
                            {[ SCHEDULE_ANNOTATION := text ]});
     Replicas := Some replicas |}.

(** A workload without any annotation: the annotation map is nil. *)
Definition bare (name : string) (replicas : Z) : Deployment :=
  {| Namespace := "default"; Name := name;
     Annotations := None; Replicas := Some replicas |}.

(** A workload with an empty annotation map. *)
Definition plain (name : string) (replicas : Z) : Deployment :=
  {| Namespace := "default"; Name := name;
     Annotations := Some ∅; Replicas := Some replicas |}.

(** A cluster holding the given deployments of namespace default. *)
Definition cluster (ds : list Deployment) (script : list (option UpdateReply))
  : Clientset :=
  {| objects := list_to_map (map (fun d => (("default"%string, Name d), d)) ds);
     replies := script |}.

(** An informer cache holding the given deployments, listed in order. *)
Definition mirror (ds : list Deployment) : Indexer :=
  {| ListKeys := map (fun d => ("default/" ++ Name d)%string) ds;
     GetByKey := fun key =>
       match find (fun d => String.eqb ("default/" ++ Name d) key) ds with
       | Some d => LookupFound d
       | None => LookupAbsent
       end |}.

(** A run of [n] spaces. *)
Fixpoint spaces (n : nat) : string :=
  match n with
  | O => EmptyString
  | S n' => String " "%char (spaces n')
  end.

(** A time written with two digits for the hour and for the minute, with
    [before] spaces in front of it and [after] spaces behind it. *)
Definition padded (before : nat) (t : time.Time) (after : nat) : string :=
  (spaces before ++ time.Format_15_04 t ++ spaces after)%string.

(** A POST request whose body names a workload. *)
Definition post (namespace name : string) : service.Request :=
  {| service.Method := "POST";
     service.Body := service.Decoded {| service.jsonNamespace := namespace;
                                        service.jsonName := name |} |}.

End sample.

(** ** Predicates used in the statements *)

Import controller sample.


(** The check of the loop on [scheduler.enabled]: present and equal to
    "true" whatever the case of its letters. *)
Definition isEnabled (object : Deployment) : bool :=
  match gomap.get (Annotations object) ENABLED_ANNOTATION with
  | Some value => String.eqb (strings.ToLower value) "true"
  | None => false
  end.

(** The word "true" in any mix of upper and lower case. *)
Definition spelledTrue (value : string) : Prop :=
  exists c1 c2 c3 c4,
    value = String c1 (String c2 (String c3 (String c4 EmptyString))) /\
    (c1 = "t" \/ c1 = "T")%char /\ (c2 = "r" \/ c2 = "R")%char /\
    (c3 = "u" \/ c3 = "U")%char /\ (c4 = "e" \/ c4 = "E")%char.

(** A key that the loop passes over: the informer has no object for it,
    or one that is not enabled. *)
Definition passedOver (indexer : Indexer) (key : string) : Prop :=
  GetByKey indexer key = LookupAbsent \/
  exists object, GetByKey indexer key = LookupFound object /\
                 isEnabled object = false.

(** A time of the day: hour below 24, minute below 60. *)
Definition validTime (t : time.Time) : Prop :=
  0 <= time.Hour t < 24 /\ 0 <= time.Minute t < 60.

(** * Properties *)

(** ** The library models on small inputs *)

Example Split_schedule :
  strings.Split "09:00 - 17:00" "-" = ["09:00 "; " 17:00"]%string.
Proof. reflexivity. Qed.

Example Split_no_delimiter : strings.Split "09:00" "-" = ["09:00"]%string.
Proof. reflexivity. Qed.

Example Trim_spaces : strings.Trim "  09:00 " " " = "09:00"%string.
Proof. reflexivity. Qed.

Example Parse_short_hour : time.Parse_15_04 "9:05" = Ok (time.at_ 9 5).
Proof. reflexivity. Qed.

Example Parse_rejects :
  isErr (time.Parse_15_04 "24:00") = true /\
  isErr (time.Parse_15_04 "9:5") = true /\
  isErr (time.Parse_15_04 "09:60") = true /\
  isErr (time.Parse_15_04 "09:00 ") = true /\
  isErr (time.Parse_15_04 "") = true.
Proof. repeat split; reflexivity. Qed.

Example Itoa_values :
  strconv.Itoa 5 = "5"%string /\ strconv.Itoa 0 = "0"%string /\
  strconv.Itoa (-120) = "-120"%string /\
  strconv.Itoa 2147483647 = "2147483647"%string.
Proof. repeat split; reflexivity. Qed.

Example Atoi_values :
  strconv.Atoi "5" = Ok 5 /\ strconv.Atoi "-12" = Ok (-12) /\
  strconv.Atoi "+7" = Ok 7 /\
  isErr (strconv.Atoi "") = true /\ isErr (strconv.Atoi "+") = true /\
  isErr (strconv.Atoi "3x") = true /\
  isErr (strconv.Atoi "9223372036854775808") = true.
Proof. repeat split; reflexivity. Qed.

Example ToLower_true : strings.ToLower "TrUe" = "true"%string.
Proof. reflexivity. Qed.

(** ** [strconv.Atoi] reads back what [strconv.Itoa] writes *)

Lemma digitChar_digit d :
  0 <= d < 10 ->
  strconv.isDigit (strconv.digitChar d) = true /\
  strconv.digitVal (strconv.digitChar d) = d.
Proof.
  intros Hd.
  assert (d = 0 \/ d = 1 \/ d = 2 \/ d = 3 \/ d = 4 \/ d = 5 \/ d = 6 \/ d = 7 \/
          d = 8 \/ d = 9) as Hcases by lia.
  repeat (destruct Hcases as [-> | Hcases]; [split; reflexivity |]).
  subst d. split; reflexivity.
Qed.

Lemma parseDigits_formatUint fuel :
  forall u acc,
    (0 < fuel)%nat ->
    0 <= u < 10 ^ Z.of_nat fuel ->
    exists j, 0 <= j /\
      forall a, strconv.parseDigits (strconv.formatUint fuel u acc) a
                = strconv.parseDigits acc (a * 10 ^ j + u).
Proof.
  induction fuel as [| fuel IH]; intros u acc Hfuel Hu; [lia |].
  simpl strconv.formatUint.
  assert (Hmod : 0 <= u mod 10 < 10) by (apply Z.mod_pos_bound; lia).
  destruct (digitChar_digit _ Hmod) as [Hdig Hval].
  destruct (Z.eqb_spec (u / 10) 0) as [Hsmall | Hbig].
  - exists 1. split; [lia |]. intros a. simpl. rewrite Hdig, Hval.
    f_equal. pose proof (Z.div_mod u 10). lia.
  - assert (Hq : 0 < u / 10) by (pose proof (Z.div_pos u 10); lia).
    destruct fuel as [| fuel'].
    { simpl in Hu. pose proof (Z.div_small u 10). lia. }
    destruct (IH (u / 10) (String (strconv.digitChar (u mod 10)) acc)) as (j & Hj & Hparse).
    + lia.
    + split; [lia |]. apply Z.div_lt_upper_bound; [lia |].
      rewrite Nat2Z.inj_succ, Z.pow_succ_r in Hu by lia. lia.
    + exists (j + 1). split; [lia |]. intros a. rewrite Hparse.
      simpl. rewrite Hdig, Hval. f_equal.
      rewrite Z.pow_add_r by lia. pose proof (Z.div_mod u 10). lia.
Qed.

Lemma formatUint_starts_with_digit fuel :
  forall u acc,
    (0 < fuel)%nat -> 0 <= u ->
    exists c rest, strconv.formatUint fuel u acc = String c rest /\
                   strconv.isDigit c = true.
Proof.
  induction fuel as [| fuel IH]; intros u acc Hfuel Hu; [lia |].
  simpl strconv.formatUint.
  assert (Hmod : 0 <= u mod 10 < 10) by (apply Z.mod_pos_bound; lia).
  destruct (digitChar_digit _ Hmod) as [Hdig _].
  destruct (u / 10 =? 0); [eauto |].
  destruct fuel as [| fuel']; [simpl; eauto |].
  apply IH; [lia |]. apply Z.div_pos; lia.
Qed.

Lemma Atoi_unsigned c rest n :
  strconv.isDigit c = true ->
  strconv.parseDigits (String c rest) 0 = Some n ->
  0 <= n <= strconv.maxInt64 ->
  strconv.Atoi (String c rest) = Ok n.
Proof.
  intros Hc Hparse Hn.
  assert (Hplus : Ascii.eqb c "+" = false).
  { destruct (Ascii.eqb_spec c "+"%char); [subst; discriminate | reflexivity]. }
  assert (Hminus : Ascii.eqb c "-" = false).
  { destruct (Ascii.eqb_spec c "-"%char); [subst; discriminate | reflexivity]. }
  unfold strconv.Atoi.
  replace (match String c rest with
           | String "+"%char rest0 => (false, rest0)
           | String "-"%char rest0 => (true, rest0)
           | _ => (false, String c rest)
           end) with (false, String c rest).
  - rewrite Hparse.
    replace (strconv.minInt64 <=? n) with true
      by (symmetry; apply Z.leb_le; unfold strconv.minInt64; lia).
    replace (n <=? strconv.maxInt64) with true by (symmetry; apply Z.leb_le; lia).
    reflexivity.
  - destruct c as [[] [] [] [] [] [] [] []]; try reflexivity; discriminate.
Qed.

Lemma Atoi_Itoa i :
  strconv.minInt64 <= i <= strconv.maxInt64 ->
  strconv.Atoi (strconv.Itoa i) = Ok i.
Proof.
  intros Hi.
  assert (Hrange : - 2 ^ 63 <= i <= 2 ^ 63 - 1) by exact Hi.
  assert (Hmin : (strconv.minInt64 <=? i) = true) by (apply Z.leb_le, Hi).
  assert (Hmax : (i <=? strconv.maxInt64) = true) by (apply Z.leb_le, Hi).
  unfold strconv.Itoa.
  destruct (Z.ltb_spec i 0) as [Hneg | Hpos].
  - destruct (formatUint_starts_with_digit 20 (- i) EmptyString) as (c & rest & Hs & Hc);
      [lia | lia |].
    destruct (parseDigits_formatUint 20 (- i) EmptyString) as (j & Hj & Hparse);
      [lia | change (10 ^ Z.of_nat 20) with 100000000000000000000; lia |].
    specialize (Hparse 0). rewrite Hs in *.
    change (strconv.parseDigits EmptyString (0 * 10 ^ j + - i))
      with (Some (0 * 10 ^ j + - i)) in Hparse.
    rewrite Z.mul_0_l, Z.add_0_l in Hparse.
    unfold strconv.Atoi. rewrite Hparse.
    replace (- - i) with i by lia. rewrite Hmin, Hmax. reflexivity.
  - destruct (formatUint_starts_with_digit 20 i EmptyString) as (c & rest & Hs & Hc);
      [lia | lia |].
    destruct (parseDigits_formatUint 20 i EmptyString) as (j & Hj & Hparse);
      [lia | change (10 ^ Z.of_nat 20) with 100000000000000000000; lia |].
    specialize (Hparse 0). rewrite Hs in *.
    change (strconv.parseDigits EmptyString (0 * 10 ^ j + i))
      with (Some (0 * 10 ^ j + i)) in Hparse.
    rewrite Z.mul_0_l, Z.add_0_l in Hparse.
    apply Atoi_unsigned; [assumption | assumption |].
    unfold strconv.maxInt64. lia.
Qed.

Lemma int32_in_range i : - 2 ^ 31 <= i < 2 ^ 31 -> int32 i = i.
Proof. intros Hi. unfold int32. rewrite Z.mod_small; lia. Qed.

(** ** The time-range test *)

Lemma InRangeNow_wrapping (t : TimeRange) (now : time.Time) :
  time.minuteOfDay (End t) < time.minuteOfDay (Start t) ->
  InRangeNow t now =
    (time.minuteOfDay (Start t) <? time.minuteOfDay now)
    || (time.minuteOfDay now <? time.minuteOfDay (End t)).
Proof.
  intros Hwrap. unfold InRangeNow, time.Before, time.After.
  apply Z.ltb_lt in Hwrap. rewrite Hwrap. reflexivity.
Qed.

Lemma InRangeNow_plain (t : TimeRange) (now : time.Time) :
  time.minuteOfDay (Start t) <= time.minuteOfDay (End t) ->
  InRangeNow t now =
    (time.minuteOfDay (Start t) <? time.minuteOfDay now)
    && (time.minuteOfDay now <? time.minuteOfDay (End t)).
Proof.
  intros Hplain. unfold InRangeNow, time.Before, time.After.
  destruct (Z.ltb_spec (time.minuteOfDay (End t)) (time.minuteOfDay (Start t)));
    [lia | reflexivity].
Qed.

(** C7. The comparisons of [InRangeNow] are strict at both ends: for the
    range (09:00, 17:00) the test is false at 09:00, true at 09:01, true
    at 16:59 and false at 17:00; for every range it is false when now is
    the start and when now is the end; and for every range whose start and
    end are equal it is false at every time. *)
Theorem InRangeNow_strict_boundaries :
  let office := {| Start := time.at_ 9 0; End := time.at_ 17 0 |} in
  InRangeNow office (time.at_ 9 0) = false /\
  InRangeNow office (time.at_ 9 1) = true /\
  InRangeNow office (time.at_ 16 59) = true /\
  InRangeNow office (time.at_ 17 0) = false /\
  (forall t : TimeRange,
     InRangeNow t (Start t) = false /\ InRangeNow t (End t) = false) /\
  (forall bound now : time.Time,
     InRangeNow {| Start := bound; End := bound |} now = false).
Proof.
  cbv zeta. repeat split; try reflexivity.
  - unfold InRangeNow, time.Before, time.After.
    destruct (Z.ltb_spec (time.minuteOfDay (End t)) (time.minuteOfDay (Start t))) as [H|H];
      rewrite Z.ltb_irrefl; simpl; [| reflexivity].
    apply Z.ltb_ge. lia.
  - unfold InRangeNow, time.Before, time.After.
    destruct (Z.ltb_spec (time.minuteOfDay (End t)) (time.minuteOfDay (Start t))) as [H|H];
      rewrite Z.ltb_irrefl.
    + rewrite orb_false_r. apply Z.ltb_ge. lia.
    + apply andb_false_r.
  - intros bound now. rewrite InRangeNow_plain by (simpl; lia). simpl.
    destruct (Z.ltb_spec (time.minuteOfDay bound) (time.minuteOfDay now));
      destruct (Z.ltb_spec (time.minuteOfDay now) (time.minuteOfDay bound));
      simpl; try reflexivity; lia.
Qed.

(** C8. For every range whose end is before its start, now is in the range
    iff now is after the start or before the end; for the range
    (22:00, 06:00) the test is true at 23:00, true at 03:00 and false at
    12:00. *)
Theorem InRangeNow_wraps_past_midnight :
  (forall (t : TimeRange) (now : time.Time),
     time.Before (End t) (Start t) = true ->
     (InRangeNow t now = true <->
      time.minuteOfDay (Start t) < time.minuteOfDay now \/
      time.minuteOfDay now < time.minuteOfDay (End t))) /\
  (let night := {| Start := time.at_ 22 0; End := time.at_ 6 0 |} in
   InRangeNow night (time.at_ 23 0) = true /\
   InRangeNow night (time.at_ 3 0) = true /\
   InRangeNow night (time.at_ 12 0) = false).
Proof.
  split; [| cbv zeta; repeat split; reflexivity].
  intros t now Hwrap. unfold time.Before in Hwrap. apply Z.ltb_lt in Hwrap.
  rewrite InRangeNow_wrapping by assumption.
  rewrite orb_true_iff, !Z.ltb_lt. reflexivity.
Qed.

Lemma InRangeNow_wraps_past_midnight_witness :
  let night := {| Start := time.at_ 22 0; End := time.at_ 6 0 |} in
  time.Before (End night) (Start night) = true /\
  (InRangeNow night (time.at_ 23 30) = true <->
   time.minuteOfDay (Start night) < time.minuteOfDay (time.at_ 23 30) \/
   time.minuteOfDay (time.at_ 23 30) < time.minuteOfDay (End night)).
Proof.
  cbv zeta. split; [reflexivity |].
  apply (proj1 InRangeNow_wraps_past_midnight
           {| Start := time.at_ 22 0; End := time.at_ 6 0 |} (time.at_ 23 30)).
  reflexivity.
Defined.

(** ** The schedule parser *)

Lemma parse_missing_annotation (annotations : option (gmap string string)) :
  gomap.get annotations SCHEDULE_ANNOTATION = None ->
  parseScheduleAnnotation annotations = Err (ErrMissingAnnotation SCHEDULE_ANNOTATION).
Proof. intros H. unfold parseScheduleAnnotation. rewrite H. reflexivity. Qed.

Lemma Split_nonempty (s : string) (sep : ascii) :
  exists token0 tokens, strings.Split s sep = token0 :: tokens.
Proof.
  induction s as [| c rest IH]; simpl; [eauto |].
  destruct (Ascii.eqb c sep); [eauto |].
  destruct IH as (t & ts & ->). eauto.
Qed.

(** The first token that does not parse is reported as an error. *)
Lemma parse_first_token_unparsable annotations text token0 tokens e :
  gomap.get annotations SCHEDULE_ANNOTATION = Some text ->
  strings.Split text "-" = token0 :: tokens ->
  time.Parse_15_04 (strings.Trim token0 " ") = Err e ->
  parseScheduleAnnotation annotations = Err e.
Proof.
  intros Hget Hsplit Hparse. unfold parseScheduleAnnotation.
  rewrite Hget, Hsplit. simpl. rewrite Hparse. reflexivity.
Qed.

(** A text without the delimiter whose only token parses makes the parser
    index past the end of the token slice. *)
Lemma parse_single_token_panics annotations text token0 start :
  gomap.get annotations SCHEDULE_ANNOTATION = Some text ->
  strings.Split text "-" = [token0] ->
  time.Parse_15_04 (strings.Trim token0 " ") = Ok start ->
  parseScheduleAnnotation annotations = Panic (IndexOutOfRange 1 1).
Proof.
  intros Hget Hsplit Hparse. unfold parseScheduleAnnotation.
  rewrite Hget, Hsplit. simpl. rewrite Hparse. reflexivity.
Qed.

(** Tokens after the second one are never looked at. *)
Lemma parse_ignores_extra_tokens annotations text token0 token1 tokens start end_ :
  gomap.get annotations SCHEDULE_ANNOTATION = Some text ->
  strings.Split text "-" = token0 :: token1 :: tokens ->
  time.Parse_15_04 (strings.Trim token0 " ") = Ok start ->
  time.Parse_15_04 (strings.Trim token1 " ") = Ok end_ ->
  parseScheduleAnnotation annotations = Ok {| Start := start; End := end_ |}.
Proof.
  intros Hget Hsplit Hp0 Hp1. unfold parseScheduleAnnotation.
  rewrite Hget, Hsplit. simpl. rewrite Hp0, Hp1. reflexivity.
Qed.

(** C1. The parser on malformed values: the value "09:00", which has one
    token instead of two, makes the parser panic with an index out of
    range instead of returning an error, and the value
    "09:00-17:00-23:00", which has three tokens, is accepted as the range
    (09:00, 17:00); an absent annotation and an unparsable time are
    reported as errors. *)
Theorem parseScheduleAnnotation_wrong_token_count :
  parseScheduleAnnotation (scheduleOf "09:00") = Panic (IndexOutOfRange 1 1) /\
  parseScheduleAnnotation (scheduleOf "09:00-17:00-23:00")
    = Ok {| Start := time.at_ 9 0; End := time.at_ 17 0 |} /\
  parseScheduleAnnotation (scheduleOf "9am-5pm") = Err (ErrTimeParse "9am") /\
  parseScheduleAnnotation (scheduleOf "09:00-25:00") = Err (ErrTimeParse "25:00") /\
  parseScheduleAnnotation (Some ∅) = Err (ErrMissingAnnotation SCHEDULE_ANNOTATION) /\
  parseScheduleAnnotation None = Err (ErrMissingAnnotation SCHEDULE_ANNOTATION).
Proof. repeat split; reflexivity. Qed.

(** ** The cluster API and the retry loop *)

Lemma Update_Err_objects c namespace d e c' :
  Update c namespace d = (Err e, c') -> objects c' = objects c.
Proof.
  unfold Update. intros H.
  destruct (head (replies c)) as [[[| msg] |] |];
    try (inversion H; subst; reflexivity);
    destruct (objects c !! (namespace, Name d)); inversion H; subst; reflexivity.
Qed.

Lemma Update_Ok_objects c namespace d c' :
  Update c namespace d = (Ok tt, c') ->
  objects c' = <[(namespace, Name d) := d]> (objects c).
Proof.
  unfold Update. intros H.
  destruct (head (replies c)) as [[[| msg] |] |];
    try (inversion H; fail);
    destruct (objects c !! (namespace, Name d)); inversion H; subst; reflexivity.
Qed.


(** An update that the script accepts replaces the stored object. *)
Lemma Update_accepted c namespace d old :
  head (replies c) = None \/ head (replies c) = Some None ->
  objects c !! (namespace, Name d) = Some old ->
  Update c namespace d =
    (Ok tt, {| objects := <[(namespace, Name d) := d]> (objects c);
               replies := tail (replies c) |}).
Proof.
  intros Hacc Hold. unfold Update. rewrite Hold.
  destruct Hacc as [-> | ->]; reflexivity.
Qed.


(** When the retry loop succeeds, its last attempt succeeded, on a cluster
    holding the objects of the start if failed attempts do not write. *)
Lemma RetryOnConflict_Ok_inv (fn : Clientset -> result unit * Clientset) :
  (forall c e c', fn c = (Err e, c') -> objects c' = objects c) ->
  forall steps lastErr c c',
    RetryOnConflict steps lastErr fn c = (Ok tt, c') ->
    steps <> O ->
    exists c0, objects c0 = objects c /\ fn c0 = (Ok tt, c').
Proof.
  intros Hfn steps. induction steps as [| steps IH]; intros lastErr c c' Hrun Hsteps.
  - congruence.
  - simpl in Hrun. destruct (fn c) as [[[] | e | p] c1] eqn:Hstep.
    + inversion Hrun; subst. eauto.
    + destruct (IsConflict e); [| discriminate].
      destruct steps as [| steps']; [simpl in Hrun; discriminate |].
      destruct (IH _ _ _ Hrun) as (c0 & Hobj & Hc0); [discriminate |].
      exists c0. split; [| assumption].
      rewrite Hobj. eapply Hfn; eassumption.
    + discriminate.
Qed.

(** The first attempt decides when it does not end in a conflict. *)
Lemma RetryOnConflict_first_attempt steps lastErr fn c r c' :
  fn c = (r, c') ->
  (forall e, r = Err e -> IsConflict e = false) ->
  RetryOnConflict (S steps) lastErr fn c = (r, c').
Proof.
  intros Hstep Hnc. simpl. rewrite Hstep.
  destruct r as [[] | e | p]; try reflexivity.
  rewrite (Hnc e eq_refl). reflexivity.
Qed.

(** ** The toggle protocol *)

Lemma toggleAttempt_Err_objects namespace deployment targetState c e c' :
  toggleAttempt namespace deployment targetState c = (Err e, c') ->
  objects c' = objects c.
Proof.
  unfold toggleAttempt. intros H.
  destruct (Get c namespace deployment) as [d | ge | p]; [| inversion H; auto | inversion H].
  destruct (Replicas d) as [replicas |]; [| inversion H].
  destruct (if negb (replicas =? 0) then _ else _) as [a | e' | p]; [| inversion H; auto | inversion H].
  destruct (Bool.eqb targetState DISABLED).
  - destruct (replicas =? 0); [inversion H |]. eapply Update_Err_objects; eassumption.
  - destruct (negb (replicas =? 0)); [inversion H |].
    destruct (gomap.get a REPLICAS_MEMORY_ANNOTATION) as [value |].
    + destruct (strconv.Atoi value); [| inversion H; auto | inversion H].
      eapply Update_Err_objects; eassumption.
    + eapply Update_Err_objects; eassumption.
Qed.

Lemma Get_found c namespace name d :
  objects c !! (namespace, name) = Some d ->
  Get c namespace name =
    Ok {| Namespace := namespace; Name := name;
          Annotations := Annotations d; Replicas := Replicas d |}.
Proof. intros H. unfold Get. rewrite H. reflexivity. Qed.

Lemma Get_missing c namespace name :
  objects c !! (namespace, name) = None -> Get c namespace name = Err ErrNotFound.
Proof. intros H. unfold Get. rewrite H. reflexivity. Qed.

(** The memorize step on a nil annotation map. *)
Lemma toggleAttempt_nil_map c namespace name d replicas targetState :
  objects c !! (namespace, name) = Some d ->
  Annotations d = None ->
  Replicas d = Some replicas ->
  replicas <> 0 ->
  toggleAttempt namespace name targetState c = (Panic NilMapAssignment, c).
Proof.
  intros Hd Ha Hr Hnz. unfold toggleAttempt. rewrite (Get_found _ _ _ _ Hd). simpl.
  rewrite Hr, Ha. apply Z.eqb_neq in Hnz. rewrite Hnz. reflexivity.
Qed.

(** C10. The memorize step of both toggle variants assigns into the
    annotation map of the deployment without checking that there is one:
    for every deployment with a non-zero replica count and no annotation
    map, [ToggleDeployment] and [AttemptToggleDeployment] panic on the
    assignment, for both target states, and write nothing. *)
Theorem memorize_panics_on_nil_annotations
    (c : Clientset) (namespace name : string) (d : Deployment)
    (replicas : Z) (targetState : DeploymentState) :
  objects c !! (namespace, name) = Some d ->
  Annotations d = None ->
  Replicas d = Some replicas ->
  replicas <> 0 ->
  ToggleDeployment c namespace name targetState = (Panic NilMapAssignment, c) /\
  AttemptToggleDeployment c d targetState = (Panic NilMapAssignment, d, c).
Proof.
  intros Hd Ha Hr Hnz. split.
  - unfold ToggleDeployment, DefaultRetrySteps.
    rewrite (RetryOnConflict_first_attempt _ _ _ _ (Panic NilMapAssignment) c);
      [reflexivity | | discriminate].
    eapply toggleAttempt_nil_map; eassumption.
  - unfold AttemptToggleDeployment. rewrite Hr, Ha.
    apply Z.eqb_neq in Hnz. rewrite Hnz. reflexivity.
Qed.

Lemma memorize_panics_on_nil_annotations_witness :
  let c := cluster [bare "web" 3] [] in
  ToggleDeployment c "default" "web" DISABLED = (Panic NilMapAssignment, c) /\
  AttemptToggleDeployment c (bare "web" 3) DISABLED
    = (Panic NilMapAssignment, bare "web" 3, c).
Proof.
  cbv zeta.
  apply (memorize_panics_on_nil_annotations
           (cluster [bare "web" 3] []) "default" "web" (bare "web" 3) 3 DISABLED);
    [reflexivity | reflexivity | reflexivity | lia].
Defined.

(** The fetch of a workload that is gone fails the whole call. *)
Lemma toggleAttempt_missing c namespace name targetState :
  objects c !! (namespace, name) = None ->
  toggleAttempt namespace name targetState c = (Err (ErrGetFailed ErrNotFound), c).
Proof.
  intros H. unfold toggleAttempt. rewrite (Get_missing _ _ _ H). reflexivity.
Qed.

Lemma Get_NotFound_inv c namespace name :
  Get c namespace name = Err ErrNotFound -> objects c !! (namespace, name) = None.
Proof.
  unfold Get. destruct (objects c !! (namespace, name)); [discriminate | reflexivity].
Qed.

Lemma Get_Ok_inv c namespace name fetched :
  Get c namespace name = Ok fetched ->
  exists d, objects c !! (namespace, name) = Some d /\
            Replicas fetched = Replicas d /\ Annotations fetched = Annotations d.
Proof.
  unfold Get. destruct (objects c !! (namespace, name)) as [d |]; [| discriminate].
  intros H. inversion H; subst. exists d. auto.
Qed.

(** C2, as the code has it. For every key whose workload no longer exists
    when it is fetched (the fetch answers NotFound), [ToggleDeployment]
    returns the error "Update failed: Failed to get latest version of
    Deployment: not found", for both target states, and writes nothing;
    and the loop, reaching an enabled workload with a valid schedule that
    is gone from the cluster, logs that error and goes on with the next
    key, the cluster unchanged. *)
Theorem toggle_missing_workload_fails
    (c : Clientset) (namespace name : string) :
  Get c namespace name = Err ErrNotFound ->
  (forall targetState : DeploymentState,
     ToggleDeployment c namespace name targetState
       = (Err (ErrUpdateFailed (ErrGetFailed ErrNotFound)), c)) /\
  (forall now indexer key keys object schedule log,
     GetByKey indexer key = LookupFound object ->
     isEnabled object = true ->
     parseScheduleAnnotation (Annotations object) = Ok schedule ->
     Namespace object = namespace ->
     Name object = name ->
     loopKeys now indexer (key :: keys) c log =
     loopKeys now indexer keys c
       ((log ++ [LogChecking key])
        ++ [LogError (ErrUpdateFailed (ErrGetFailed ErrNotFound))])).
Proof.
  intros Hgone. apply Get_NotFound_inv in Hgone.
  assert (Hfail : forall targetState : DeploymentState,
            ToggleDeployment c namespace name targetState
              = (Err (ErrUpdateFailed (ErrGetFailed ErrNotFound)), c)).
  { intros targetState. unfold ToggleDeployment, DefaultRetrySteps.
    rewrite (RetryOnConflict_first_attempt _ _ _ _ (Err (ErrGetFailed ErrNotFound)) c).
    - reflexivity.
    - apply toggleAttempt_missing; assumption.
    - intros e He. inversion He. reflexivity. }
  split; [exact Hfail |].
  intros now indexer key keys object schedule log Hkey Hen Hparse Hns Hname.
  unfold isEnabled in Hen.
  destruct (gomap.get (Annotations object) ENABLED_ANNOTATION) as [value |] eqn:Hval;
    [| discriminate].
  simpl. rewrite Hkey, Hval, Hen, Hparse, Hns, Hname. cbn [negb].
  destruct (InRangeNow schedule now); rewrite Hfail; reflexivity.
Qed.

Lemma toggle_missing_workload_fails_witness :
  let c := cluster [plain "web" 3] [] in
  let gone := scheduled "gone" "22:00-06:00" 3 in
  ToggleDeployment c "default" "gone" ENABLED
    = (Err (ErrUpdateFailed (ErrGetFailed ErrNotFound)), c) /\
  loopKeys (time.at_ 23 30) (mirror [gone; plain "web" 3])
    ["default/gone"; "default/web"]%string c []
  = loopKeys (time.at_ 23 30) (mirror [gone; plain "web" 3])
      ["default/web"]%string c
      (([] ++ [LogChecking "default/gone"])
       ++ [LogError (ErrUpdateFailed (ErrGetFailed ErrNotFound))]).
Proof.
  intros c gone.
  destruct (toggle_missing_workload_fails c "default" "gone" eq_refl) as [Hfail Hloop].
  split; [apply Hfail |].
  apply (Hloop (time.at_ 23 30) (mirror [gone; plain "web" 3]) "default/gone"%string
           ["default/web"%string] gone
           {| Start := time.at_ 22 0; End := time.at_ 6 0 |} []);
    reflexivity.
Defined.

(** C2, as stated, fails: with the workload "gone" deleted from the
    cluster, neither target state yields success, and a tick whose cache
    still lists the workload logs the failure as an error. *)
Lemma toggle_missing_workload_counterexample :
  let c := cluster [] [] in
  fst (ToggleDeployment c "default" "gone" DISABLED) <> Ok tt /\
  fst (ToggleDeployment c "default" "gone" ENABLED) <> Ok tt /\
  loopIteration (time.at_ 23 30) (mirror [scheduled "gone" "22:00-06:00" 3]) c
    = (Ok tt, c,
       [LogChecking "default/gone";
        LogError (ErrUpdateFailed (ErrGetFailed ErrNotFound))]).
Proof. cbv zeta. repeat split; try discriminate. Qed.

(** What a successful suspending attempt did. *)
Lemma toggleAttempt_suspend_Ok c namespace name d c' :
  objects c !! (namespace, name) = Some d ->
  toggleAttempt namespace name DISABLED c = (Ok tt, c') ->
  (Replicas d = Some 0 /\ c' = c) \/
  (exists replicas m,
     Replicas d = Some replicas /\ replicas <> 0 /\ Annotations d = Some m /\
     objects c' =
       <[(namespace, name) :=
           {| Namespace := namespace; Name := name;
              Annotations :=
                Some (<[REPLICAS_MEMORY_ANNOTATION := strconv.Itoa replicas]> m);
              Replicas := Some 0 |}]> (objects c)).
Proof.
  intros Hd. unfold toggleAttempt. rewrite (Get_found _ _ _ _ Hd). simpl.
  destruct (Replicas d) as [replicas |]; [| discriminate].
  destruct (Z.eqb_spec replicas 0) as [-> | Hnz]; simpl.
  - intros H. inversion H. auto.
  - destruct (Annotations d) as [m |]; simpl; [| discriminate].
    intros H. right. exists replicas, m. repeat split; try assumption.
    apply Update_Ok_objects in H. exact H.
Qed.

(** What a successful resuming attempt did. *)
Lemma toggleAttempt_resume_Ok c namespace name d c' :
  objects c !! (namespace, name) = Some d ->
  toggleAttempt namespace name ENABLED c = (Ok tt, c') ->
  (exists replicas, Replicas d = Some replicas /\ replicas <> 0 /\ c' = c) \/
  (Replicas d = Some 0 /\
   exists value i,
     gomap.get (Annotations d) REPLICAS_MEMORY_ANNOTATION = Some value /\
     strconv.Atoi value = Ok i /\
     objects c' =
       <[(namespace, name) :=
           {| Namespace := namespace; Name := name;
              Annotations := gomap.del (Annotations d) REPLICAS_MEMORY_ANNOTATION;
              Replicas := Some (int32 i) |}]> (objects c)) \/
  (Replicas d = Some 0 /\
   gomap.get (Annotations d) REPLICAS_MEMORY_ANNOTATION = None /\
   objects c' =
     <[(namespace, name) :=
         {| Namespace := namespace; Name := name;
            Annotations := Annotations d; Replicas := Some 0 |}]> (objects c)).
Proof.
  intros Hd. unfold toggleAttempt. rewrite (Get_found _ _ _ _ Hd). simpl.
  destruct (Replicas d) as [replicas |]; [| discriminate].
  destruct (Z.eqb_spec replicas 0) as [-> | Hnz]; simpl.
  - destruct (gomap.get (Annotations d) REPLICAS_MEMORY_ANNOTATION) as [value |] eqn:Hv.
    + destruct (strconv.Atoi value) as [i | e | p] eqn:Hi; try discriminate.
      intros H. right. left. split; [reflexivity |]. exists value, i.
      repeat split; try assumption. apply Update_Ok_objects in H. exact H.
    + intros H. right. right. repeat split.
      apply Update_Ok_objects in H. exact H.
  - destruct (Annotations d) as [m |]; simpl; [| discriminate].
    intros H. inversion H. left. exists replicas. auto.
Qed.

(** A successful [ToggleDeployment] ends with a successful attempt on the
    objects it started from. *)
Lemma ToggleDeployment_Ok_inv c namespace name targetState c' :
  ToggleDeployment c namespace name targetState = (Ok tt, c') ->
  exists c0, objects c0 = objects c /\
             toggleAttempt namespace name targetState c0 = (Ok tt, c').
Proof.
  unfold ToggleDeployment. intros H.
  destruct (RetryOnConflict _ _ _ _) as [[[] | e | p] c1] eqn:Hrun; inversion H; subst.
  eapply RetryOnConflict_Ok_inv in Hrun; [exact Hrun | | discriminate].
  intros c0 e c0'. apply toggleAttempt_Err_objects.
Qed.

(** C4. For every workload with five desired replicas, suspending it and
    then resuming it, each call succeeding, leaves it with five desired
    replicas and without the replicas-memory annotation; in between it has
    zero replicas and the annotation holds "5". *)
Theorem toggle_round_trip
    (c c1 c2 : Clientset) (namespace name : string) (d : Deployment) :
  objects c !! (namespace, name) = Some d ->
  Replicas d = Some 5 ->
  ToggleDeployment c namespace name DISABLED = (Ok tt, c1) ->
  ToggleDeployment c1 namespace name ENABLED = (Ok tt, c2) ->
  (exists d1,
     objects c1 !! (namespace, name) = Some d1 /\
     Replicas d1 = Some 0 /\
     gomap.get (Annotations d1) REPLICAS_MEMORY_ANNOTATION = Some "5"%string) /\
  (exists d2,
     objects c2 !! (namespace, name) = Some d2 /\
     Replicas d2 = Some 5 /\
     gomap.get (Annotations d2) REPLICAS_MEMORY_ANNOTATION = None).
Proof.
  intros Hd Hr Hdown Hup.
  apply ToggleDeployment_Ok_inv in Hdown as (c0 & Hobj0 & Hdown).
  rewrite <- Hobj0 in Hd.
  destruct (toggleAttempt_suspend_Ok _ _ _ _ _ Hd Hdown)
    as [[Hzero _] | (replicas & m & Hr' & _ & Hm & Hobj1)]; [congruence |].
  assert (replicas = 5) as -> by congruence.
  assert (Hd1 : objects c1 !! (namespace, name) =
                Some {| Namespace := namespace; Name := name;
                        Annotations :=
                          Some (<[REPLICAS_MEMORY_ANNOTATION := strconv.Itoa 5]> m);
                        Replicas := Some 0 |})
    by (rewrite Hobj1; apply lookup_insert_eq).
  split.
  { eexists. split; [exact Hd1 |]. split; [reflexivity |].
    simpl. apply lookup_insert_eq. }
  apply ToggleDeployment_Ok_inv in Hup as (c0' & Hobj0' & Hup).
  rewrite <- Hobj0' in Hd1.
  destruct (toggleAttempt_resume_Ok _ _ _ _ _ Hd1 Hup)
    as [(r & Hr1 & Hnz & _) | [(_ & value & i & Hv & Hi & Hobj2) | (_ & Hv & _)]];
    simpl in *.
  - congruence.
  - rewrite lookup_insert_eq in Hv. inversion Hv; subst value.
    assert (i = 5) as -> by (vm_compute in Hi; congruence).
    eexists. split; [rewrite Hobj2; apply lookup_insert_eq |].
    split; [reflexivity |]. simpl. apply lookup_delete_eq.
  - rewrite lookup_insert_eq in Hv. discriminate.
Qed.

Lemma toggle_round_trip_witness :
  let c := cluster [plain "web" 5] [Some ReplyConflict] in
  let c1 := snd (ToggleDeployment c "default" "web" DISABLED) in
  let c2 := snd (ToggleDeployment c1 "default" "web" ENABLED) in
  ToggleDeployment c "default" "web" DISABLED = (Ok tt, c1) /\
  ToggleDeployment c1 "default" "web" ENABLED = (Ok tt, c2) /\
  exists d2,
    objects c2 !! ("default"%string, "web"%string) = Some d2 /\
    Replicas d2 = Some 5 /\
    gomap.get (Annotations d2) REPLICAS_MEMORY_ANNOTATION = None.
Proof.
  intros c c1 c2.
  split; [reflexivity |]. split; [reflexivity |].
  apply (proj2 (toggle_round_trip c c1 c2 "default" "web" (plain "web" 5)
                  eq_refl eq_refl eq_refl eq_refl)).
Defined.

(** X1. The round trip for any replica count: a workload with a non-zero
    count that is suspended and then resumed, each call succeeding, has
    its count back and no replicas-memory annotation. *)
Lemma toggle_round_trip_any_count
    (c c1 c2 : Clientset) (namespace name : string) (d : Deployment) (replicas : Z) :
  objects c !! (namespace, name) = Some d ->
  Replicas d = Some replicas ->
  replicas <> 0 ->
  - 2 ^ 31 <= replicas < 2 ^ 31 ->
  ToggleDeployment c namespace name DISABLED = (Ok tt, c1) ->
  ToggleDeployment c1 namespace name ENABLED = (Ok tt, c2) ->
  exists d2,
    objects c2 !! (namespace, name) = Some d2 /\
    Replicas d2 = Some replicas /\
    gomap.get (Annotations d2) REPLICAS_MEMORY_ANNOTATION = None.
Proof.
  intros Hd Hr Hnz Hrange Hdown Hup.
  apply ToggleDeployment_Ok_inv in Hdown as (c0 & Hobj0 & Hdown).
  rewrite <- Hobj0 in Hd.
  destruct (toggleAttempt_suspend_Ok _ _ _ _ _ Hd Hdown)
    as [[Hzero _] | (n & m & Hr' & _ & Hm & Hobj1)]; [congruence |].
  assert (n = replicas) as -> by congruence.
  assert (Hd1 : objects c1 !! (namespace, name) =
                Some {| Namespace := namespace; Name := name;
                        Annotations :=
                          Some (<[REPLICAS_MEMORY_ANNOTATION := strconv.Itoa replicas]> m);
                        Replicas := Some 0 |})
    by (rewrite Hobj1; apply lookup_insert_eq).
  apply ToggleDeployment_Ok_inv in Hup as (c0' & Hobj0' & Hup).
  rewrite <- Hobj0' in Hd1.
  destruct (toggleAttempt_resume_Ok _ _ _ _ _ Hd1 Hup)
    as [(r & Hr1 & Hnz' & _) | [(_ & value & i & Hv & Hi & Hobj2) | (_ & Hv & _)]];
    simpl in *.
  - congruence.
  - rewrite lookup_insert_eq in Hv. inversion Hv; subst value.
    rewrite Atoi_Itoa in Hi by (unfold strconv.minInt64, strconv.maxInt64; lia).
    inversion Hi; subst i.
    eexists. split; [rewrite Hobj2; apply lookup_insert_eq |].
    split; [simpl; rewrite int32_in_range by assumption; reflexivity |].
    simpl. apply lookup_delete_eq.
  - rewrite lookup_insert_eq in Hv. discriminate.
Qed.






(** X2. Suspending twice: after a call that succeeded, a fetch that
    returns the workload returns it with zero replicas, and a second call
    whose fetch returns it succeeds without sending an update: the stored
    objects and the pending answers to updates are as the first call left
    them. *)
Lemma suspend_twice c c1 namespace name fetched :
  ToggleDeployment c namespace name DISABLED = (Ok tt, c1) ->
  Get c1 namespace name = Ok fetched ->
  Replicas fetched = Some 0 /\
  ToggleDeployment c1 namespace name DISABLED = (Ok tt, c1).
Proof.
  intros Hdown Hfetch.
  apply Get_Ok_inv in Hfetch as (d1 & Hd1 & Hreplicas & _).
  apply ToggleDeployment_Ok_inv in Hdown as (c0 & Hobj0 & Hdown).
  assert (Hzero : Replicas d1 = Some 0).
  { destruct (objects c0 !! (namespace, name)) as [d |] eqn:Hd.
    - destruct (toggleAttempt_suspend_Ok _ _ _ _ _ Hd Hdown)
        as [[Hzero ->] | (replicas & m & _ & _ & _ & Hobj1)].
      + congruence.
      + rewrite Hobj1, lookup_insert_eq in Hd1. inversion Hd1. reflexivity.
    - rewrite (toggleAttempt_missing _ _ _ _ Hd) in Hdown. discriminate. }
  split; [congruence |].
  unfold ToggleDeployment, DefaultRetrySteps.
  rewrite (RetryOnConflict_first_attempt _ _ _ _ (Ok tt) c1);
    [reflexivity | | discriminate].
  unfold toggleAttempt. rewrite (Get_found _ _ _ _ Hd1). simpl.
  rewrite Hzero. reflexivity.
Qed.

(** X3. Resuming a running workload: when the fetch returns the workload
    with a non-zero replica count and an annotation map, the call returns
    success without sending an update: the stored objects and the pending
    answers to updates are unchanged. *)
Lemma resume_running_is_noop c namespace name fetched replicas m :
  Get c namespace name = Ok fetched ->
  Replicas fetched = Some replicas ->
  replicas <> 0 ->
  Annotations fetched = Some m ->
  ToggleDeployment c namespace name ENABLED = (Ok tt, c).
Proof.
  intros Hfetch Hr Hnz Hm.
  apply Get_Ok_inv in Hfetch as (d & Hd & Hreplicas & Hannotations).
  rewrite Hreplicas in Hr. rewrite Hannotations in Hm.
  unfold ToggleDeployment, DefaultRetrySteps.
  rewrite (RetryOnConflict_first_attempt _ _ _ _ (Ok tt) c);
    [reflexivity | | discriminate].
  unfold toggleAttempt. rewrite (Get_found _ _ _ _ Hd). simpl.
  rewrite Hr, Hm. apply Z.eqb_neq in Hnz. rewrite Hnz. reflexivity.
Qed.

(** C5. Idempotence fails on a workload without annotations: for the
    workload "web" with three replicas and a nil annotation map, the
    resuming call, which should be a no-op returning success, panics, and
    so does the suspending call, which should bring the replicas to zero;
    the workload stays at three replicas.  With an empty annotation map
    instead, both behave as specified. *)
Theorem toggle_idempotence_needs_annotation_map :
  let c := cluster [bare "web" 3] [] in
  let c' := cluster [plain "web" 3] [] in
  ToggleDeployment c "default" "web" ENABLED = (Panic NilMapAssignment, c) /\
  ToggleDeployment c "default" "web" DISABLED = (Panic NilMapAssignment, c) /\
  ToggleDeployment c' "default" "web" ENABLED = (Ok tt, c') /\
  (let c1 := snd (ToggleDeployment c' "default" "web" DISABLED) in
   ToggleDeployment c' "default" "web" DISABLED = (Ok tt, c1) /\
   ToggleDeployment c1 "default" "web" DISABLED = (Ok tt, c1) /\
   (Replicas <$> objects c1 !! ("default"%string, "web"%string)) = Some (Some 0)).
Proof. cbv zeta. repeat split; reflexivity. Qed.

(** ** The reconciliation loop *)

(** A schedule that the parser reports as an error is logged and the loop
    goes on with the remaining keys. *)
Lemma loopKeys_skips_parse_error now indexer key keys c log object value err :
  GetByKey indexer key = LookupFound object ->
  gomap.get (Annotations object) ENABLED_ANNOTATION = Some value ->
  strings.ToLower value = "true"%string ->
  parseScheduleAnnotation (Annotations object) = Err err ->
  loopKeys now indexer (key :: keys) c log =
  loopKeys now indexer keys c ((log ++ [LogChecking key]) ++ [LogError err]).
Proof.
  intros Hkey Hen Htrue Hparse. simpl.
  rewrite Hkey, Hen, Htrue, Hparse. reflexivity.
Qed.

(** A toggle that returns an error is logged and the loop goes on with the
    remaining keys. *)
Lemma loopKeys_continues_after_toggle_error
    now indexer key keys c c' log object value schedule err :
  GetByKey indexer key = LookupFound object ->
  gomap.get (Annotations object) ENABLED_ANNOTATION = Some value ->
  strings.ToLower value = "true"%string ->
  parseScheduleAnnotation (Annotations object) = Ok schedule ->
  ToggleDeployment c (Namespace object) (Name object)
    (if InRangeNow schedule now then DISABLED else ENABLED) = (Err err, c') ->
  loopKeys now indexer (key :: keys) c log =
  loopKeys now indexer keys c' ((log ++ [LogChecking key]) ++ [LogError err]).
Proof.
  intros Hkey Hen Htrue Hparse Htoggle. simpl.
  rewrite Hkey, Hen, Htrue, Hparse.
  destruct (InRangeNow schedule now); rewrite Htoggle; reflexivity.
Qed.

(** A schedule on which the parser panics ends the tick. *)
Lemma loopKeys_parse_panic_ends_tick now indexer key keys c log object value p :
  GetByKey indexer key = LookupFound object ->
  gomap.get (Annotations object) ENABLED_ANNOTATION = Some value ->
  strings.ToLower value = "true"%string ->
  parseScheduleAnnotation (Annotations object) = Panic p ->
  loopKeys now indexer (key :: keys) c log = (Panic p, c, log ++ [LogChecking key]).
Proof.
  intros Hkey Hen Htrue Hparse. simpl.
  rewrite Hkey, Hen, Htrue, Hparse. reflexivity.
Qed.

(** The tick of the isolation scenario when the malformed schedule is
    reported as an error: B is suspended; the loop itself logs the check
    of A, the parse error and the check of B. *)
Example tick_contains_reported_parse_error :
  let a := scheduled "a" "9am-5pm" 2 in
  let b := scheduled "b" "22:00-06:00" 3 in
  let '(r, c', log) :=
    loopIteration (time.at_ 23 30) (mirror [a; b]) (cluster [a; b] []) in
  r = Ok tt /\
  (Replicas <$> objects c' !! ("default"%string, "b"%string)) = Some (Some 0) /\
  log = [LogChecking "default/a"; LogError (ErrTimeParse "9am");
         LogChecking "default/b"].
Proof. cbv zeta. repeat split; reflexivity. Qed.

(** C3. Isolation within a tick fails for a schedule without delimiter:
    with workload A annotated "09:00" and workload B annotated
    "22:00-06:00" with three replicas, at 23:30 the tick panics while
    parsing A's schedule, B is never evaluated and keeps its three
    replicas, where the tick of B alone suspends it. *)
Theorem tick_not_isolated_from_parser_panic :
  let a := scheduled "a" "09:00" 2 in
  let b := scheduled "b" "22:00-06:00" 3 in
  loopIteration (time.at_ 23 30) (mirror [a; b]) (cluster [a; b] [])
    = (Panic (IndexOutOfRange 1 1), cluster [a; b] [], [LogChecking "default/a"]) /\
  (Replicas <$> objects (cluster [a; b] []) !! ("default"%string, "b"%string))
    = Some (Some 3) /\
  (let '(r, c', _) :=
     loopIteration (time.at_ 23 30) (mirror [b]) (cluster [a; b] []) in
   r = Ok tt /\
   (Replicas <$> objects c' !! ("default"%string, "b"%string)) = Some (Some 0)).
Proof. cbv zeta. repeat split; reflexivity. Qed.

(** ** The manual control surface *)

(** C6, as the code has it. Each manual operation maps onto one call of
    the retrying toggle, [ToggleDeployment] (the fetch and steps 3 to 5,
    run again on a conflict up to the retry bound), with the suspended
    target for scaleDown and the running target for scaleUp, and answers a
    POST request with status 200 and "Request received" when the call
    succeeds and with status 500 and the error text when it fails. *)
Theorem scale_handlers_surface_retrying_toggle
    (world : Clientset) (namespace name : string) :
  (let '(r, w, world') :=
     service.scaleDown None world (post namespace name) service.newResponse in
   match ToggleDeployment world namespace name DISABLED with
   | (Ok tt, after) =>
       r = Ok tt /\ service.status w = Some 200 /\
       service.body w = [service.Text "Request received"] /\ world' = after
   | (Err err, after) =>
       r = Ok tt /\ service.status w = Some 500 /\
       service.body w = [service.ErrorText err] /\ world' = after
   | (Panic p, after) => r = Panic p /\ world' = after
   end) /\
  (let '(r, w, world') :=
     service.scaleUp None world (post namespace name) service.newResponse in
   match ToggleDeployment world namespace name ENABLED with
   | (Ok tt, after) =>
       r = Ok tt /\ service.status w = Some 200 /\
       service.body w = [service.Text "Request received"] /\ world' = after
   | (Err err, after) =>
       r = Ok tt /\ service.status w = Some 500 /\
       service.body w = [service.ErrorText err] /\ world' = after
   | (Panic p, after) => r = Panic p /\ world' = after
   end) /\
  (forall targetState,
     ToggleDeployment world namespace name targetState =
       match RetryOnConflict 5 None (toggleAttempt namespace name targetState) world with
       | (Err retryErr, world') => (Err (ErrUpdateFailed retryErr), world')
       | outcome => outcome
       end).
Proof.
  split; [| split].
  - unfold service.scaleDown, post.
    cbn [service.Method service.Body service.jsonNamespace service.jsonName].
    destruct (ToggleDeployment world namespace name DISABLED) as [[[] | e | p] after];
      repeat split; reflexivity.
  - unfold service.scaleUp, post.
    cbn [service.Method service.Body service.jsonNamespace service.jsonName].
    destruct (ToggleDeployment world namespace name ENABLED) as [[[] | e | p] after];
      repeat split; reflexivity.
  - intros targetState. unfold ToggleDeployment, DefaultRetrySteps.
    destruct (RetryOnConflict 5 None _ world) as [[[] | e | p] world']; reflexivity.
Qed.

(** C6, as stated, fails: when the API answers the first update with a
    conflict, one run of steps 3 to 5 (the attempt of [ToggleDeployment],
    or [AttemptToggleDeployment] on the fetched object) surfaces the
    conflict and leaves the workload at three replicas, whereas scaleDown
    answers 200 with the workload at zero replicas, having retried. *)
Lemma scale_handlers_single_attempt_counterexample :
  let world := cluster [plain "web" 3] [Some ReplyConflict] in
  fst (toggleAttempt "default" "web" DISABLED world) = Err ErrConflict /\
  fst (fst (AttemptToggleDeployment world (plain "web" 3) DISABLED)) = Err ErrConflict /\
  (Replicas <$> objects (snd (AttemptToggleDeployment world (plain "web" 3) DISABLED))
                  !! ("default"%string, "web"%string)) = Some (Some 3) /\
  (let '(r, w, world') :=
     service.scaleDown None world (post "default" "web") service.newResponse in
   r = Ok tt /\
   service.status w = Some 200 /\
   service.body w = [service.Text "Request received"] /\
   (Replicas <$> objects world' !! ("default"%string, "web"%string)) = Some (Some 0) /\
   replies world' = []).
Proof. cbv zeta. repeat split; reflexivity. Qed.

(** ** More about the toggle protocol *)

(** Suspending a running workload that has an annotation map sends one
    update: zero replicas, the count memorized. *)
Lemma toggleAttempt_suspend_step c namespace name d replicas m :
  objects c !! (namespace, name) = Some d ->
  Replicas d = Some replicas ->
  replicas <> 0 ->
  Annotations d = Some m ->
  toggleAttempt namespace name DISABLED c =
    Update c namespace
      {| Namespace := namespace; Name := name;
         Annotations := Some (<[REPLICAS_MEMORY_ANNOTATION := strconv.Itoa replicas]> m);
         Replicas := Some 0 |}.
Proof.
  intros Hd Hr Hnz Hm. unfold toggleAttempt. rewrite (Get_found _ _ _ _ Hd). simpl.
  rewrite Hr, Hm. apply Z.eqb_neq in Hnz. rewrite Hnz. reflexivity.
Qed.

(** Resuming a suspended workload whose memorized count reads as [i] sends
    one update: [int32 i] replicas, the memory removed. *)
Lemma toggleAttempt_resume_step c namespace name d value i :
  objects c !! (namespace, name) = Some d ->
  Replicas d = Some 0 ->
  gomap.get (Annotations d) REPLICAS_MEMORY_ANNOTATION = Some value ->
  strconv.Atoi value = Ok i ->
  toggleAttempt namespace name ENABLED c =
    Update c namespace
      {| Namespace := namespace; Name := name;
         Annotations := gomap.del (Annotations d) REPLICAS_MEMORY_ANNOTATION;
         Replicas := Some (int32 i) |}.
Proof.
  intros Hd Hr Hv Hi. unfold toggleAttempt. rewrite (Get_found _ _ _ _ Hd). simpl.
  rewrite Hr. simpl. rewrite Hv, Hi. reflexivity.
Qed.

Lemma Update_conflict c namespace d rest :
  replies c = Some ReplyConflict :: rest ->
  Update c namespace d = (Err ErrConflict, {| objects := objects c; replies := rest |}).
Proof. intros H. unfold Update. rewrite H. reflexivity. Qed.


Section RetryOverUpdate.

(** An attempt that, on the objects of [c0], always ends in the update
    of [namespace] with [d']. *)
Variables (fn : Clientset -> result unit * Clientset)
          (c0 : Clientset) (namespace : string) (d' : Deployment).
Hypothesis fn_updates :
  forall c, objects c = objects c0 -> fn c = Update c namespace d'.

Lemma RetryOnConflict_through_conflicts N :
  forall steps lastErr c rest,
    objects c = objects c0 ->
    replies c = replicate N (Some ReplyConflict) ++ rest ->
    (N < steps)%nat ->
    exists lastErr',
      RetryOnConflict steps lastErr fn c =
      RetryOnConflict (steps - N) lastErr' fn
        {| objects := objects c0; replies := rest |}.
Proof.
  induction N as [| N IH]; intros steps lastErr c rest Hobj Hrep Hlt.
  - exists lastErr. rewrite Nat.sub_0_r. simpl in Hrep.
    destruct c as [o r]. simpl in *. subst. reflexivity.
  - destruct steps as [| steps]; [lia |].
    simpl in Hrep. simpl RetryOnConflict.
    rewrite (fn_updates c Hobj), (Update_conflict _ _ _ _ Hrep). simpl.
    destruct (IH steps (Some ErrConflict)
                {| objects := objects c; replies := replicate N (Some ReplyConflict) ++ rest |}
                rest Hobj eq_refl) as (lastErr' & Hrun); [lia |].
    exists lastErr'. rewrite Hrun. reflexivity.
Qed.

Lemma RetryOnConflict_exhausted steps :
  forall lastErr c rest,
    objects c = objects c0 ->
    replies c = replicate (S steps) (Some ReplyConflict) ++ rest ->
    RetryOnConflict (S steps) lastErr fn c =
      (Err ErrConflict, {| objects := objects c0; replies := rest |}).
Proof.
  induction steps as [| steps IH]; intros lastErr c rest Hobj Hrep;
    simpl in Hrep; simpl RetryOnConflict;
    rewrite (fn_updates c Hobj), (Update_conflict _ _ _ _ Hrep); simpl.
  - rewrite Hobj. reflexivity.
  - apply (IH (Some ErrConflict)
             {| objects := objects c;
                replies := Some ReplyConflict :: replicate steps (Some ReplyConflict) ++ rest |});
      [exact Hobj | reflexivity].
Qed.

End RetryOverUpdate.

(** X4. Conflict retry. A running workload with an annotation map is
    suspended although the API answers the first [N] updates, [N] below
    five, with a conflict, when it accepts the next one: the call returns
    success, the workload is stored with zero replicas and its count
    memorized, and [N + 1] answers of the API are used. *)
Theorem suspend_succeeds_after_conflicts
    (c : Clientset) (namespace name : string) (d : Deployment)
    (replicas : Z) (m : gmap string string)
    (N : nat) (rest : list (option UpdateReply)) :
  objects c !! (namespace, name) = Some d ->
  Replicas d = Some replicas ->
  replicas <> 0 ->
  Annotations d = Some m ->
  replies c = replicate N (Some ReplyConflict) ++ rest ->
  (N < 5)%nat ->
  head rest = None \/ head rest = Some None ->
  ToggleDeployment c namespace name DISABLED =
    (Ok tt,
     {| objects :=
          <[(namespace, name) :=
              {| Namespace := namespace; Name := name;
                 Annotations :=
                   Some (<[REPLICAS_MEMORY_ANNOTATION := strconv.Itoa replicas]> m);
                 Replicas := Some 0 |}]> (objects c);
        replies := tail rest |}).
Proof.
  intros Hd Hr Hnz Hm Hrep HN Hacc.
  unfold ToggleDeployment, DefaultRetrySteps.
  destruct (RetryOnConflict_through_conflicts
              (toggleAttempt namespace name DISABLED) c namespace _
              (fun c1 Hobj =>
                 toggleAttempt_suspend_step c1 namespace name d replicas m
                   (eq_trans (f_equal (fun o => o !! (namespace, name)) Hobj) Hd)
                   Hr Hnz Hm)
              N 5%nat None c rest eq_refl Hrep HN) as (lastErr' & ->).
  destruct (5 - N)%nat as [| k] eqn:Hk; [lia |].
  pose proof (toggleAttempt_suspend_step
                {| objects := objects c; replies := rest |}
                namespace name d replicas m Hd Hr Hnz Hm) as Hstep.
  rewrite (Update_accepted {| objects := objects c; replies := rest |} namespace
             {| Namespace := namespace; Name := name;
                Annotations :=
                  Some (<[REPLICAS_MEMORY_ANNOTATION := strconv.Itoa replicas]> m);
                Replicas := Some 0 |} d Hacc Hd) in Hstep.
  rewrite (RetryOnConflict_first_attempt _ _ _ _ _ _ Hstep); [reflexivity |].
  discriminate.
Qed.

Lemma suspend_succeeds_after_conflicts_witness :
  let c := cluster [plain "web" 3]
             [Some ReplyConflict; Some ReplyConflict; None; Some ReplyConflict] in
  ToggleDeployment c "default" "web" DISABLED =
    (Ok tt,
     {| objects :=
          <[("default"%string, "web"%string) :=
              {| Namespace := "default"; Name := "web";
                 Annotations := Some (<[REPLICAS_MEMORY_ANNOTATION := strconv.Itoa 3]> ∅);
                 Replicas := Some 0 |}]> (objects c);
        replies := tail [None; Some ReplyConflict] |}).
Proof.
  intros c.
  apply (suspend_succeeds_after_conflicts c "default" "web" (plain "web" 3) 3 ∅
           2 [None; Some ReplyConflict]);
    [reflexivity | reflexivity | lia | reflexivity | reflexivity | lia
    | right; reflexivity].
Defined.

(** X5. Conflict exhaustion. When the API answers five updates in a row with
    a conflict, suspending a running workload gives up: the call returns
    the conflict wrapped in "Update failed", the stored objects are
    unchanged and exactly five answers of the API are used. *)
Theorem suspend_gives_up_after_five_conflicts
    (c : Clientset) (namespace name : string) (d : Deployment)
    (replicas : Z) (m : gmap string string) (rest : list (option UpdateReply)) :
  objects c !! (namespace, name) = Some d ->
  Replicas d = Some replicas ->
  replicas <> 0 ->
  Annotations d = Some m ->
  replies c = replicate 5 (Some ReplyConflict) ++ rest ->
  ToggleDeployment c namespace name DISABLED =
    (Err (ErrUpdateFailed ErrConflict), {| objects := objects c; replies := rest |}).
Proof.
  intros Hd Hr Hnz Hm Hrep.
  unfold ToggleDeployment, DefaultRetrySteps.
  rewrite (RetryOnConflict_exhausted
             (toggleAttempt namespace name DISABLED) c namespace _
             (fun c1 Hobj =>
                toggleAttempt_suspend_step c1 namespace name d replicas m
                  (eq_trans (f_equal (fun o => o !! (namespace, name)) Hobj) Hd)
                  Hr Hnz Hm)
             4 None c rest eq_refl Hrep).
  reflexivity.
Qed.

Lemma suspend_gives_up_after_five_conflicts_witness :
  let c := cluster [plain "web" 3] (replicate 5 (Some ReplyConflict) ++ [None]) in
  ToggleDeployment c "default" "web" DISABLED =
    (Err (ErrUpdateFailed ErrConflict), {| objects := objects c; replies := [None] |}).
Proof.
  intros c.
  apply (suspend_gives_up_after_five_conflicts c "default" "web" (plain "web" 3) 3 ∅
           [None]);
    [reflexivity | reflexivity | lia | reflexivity | reflexivity].
Defined.



(** The only object an update can change is the one it names, which must
    exist already. *)
Lemma Update_frame c namespace d key :
  key <> (namespace, Name d) ->
  objects (snd (Update c namespace d)) !! key = objects c !! key.
Proof.
  intros Hne. unfold Update.
  destruct (head (replies c)) as [[[| msg] |] |]; try reflexivity;
    (destruct (objects c !! (namespace, Name d)); simpl;
     [apply lookup_insert_ne; congruence | reflexivity]).
Qed.

Lemma Update_dom c namespace d :
  dom (objects (snd (Update c namespace d))) = dom (objects c).
Proof.
  unfold Update.
  destruct (head (replies c)) as [[[| msg] |] |]; try reflexivity;
    (destruct (objects c !! (namespace, Name d)) eqn:Hold; simpl;
     [apply dom_insert_lookup_L; rewrite Hold; eauto | reflexivity]).
Qed.

(** An attempt leaves the cluster as it is or ends in an update of the
    workload it was asked to toggle. *)
Lemma toggleAttempt_writes_only_target namespace name targetState c :
  snd (toggleAttempt namespace name targetState c) = c \/
  exists d, Name d = name /\
            snd (toggleAttempt namespace name targetState c)
              = snd (Update c namespace d).
Proof.
  unfold toggleAttempt, Get.
  destruct (objects c !! (namespace, name)) as [d |]; [| auto].
  cbn [Replicas Annotations].
  destruct (Replicas d) as [replicas |]; [| auto].
  destruct (Z.eqb_spec replicas 0) as [Hz | Hnz]; cbn [negb].
  - destruct (Bool.eqb targetState DISABLED); [auto |].
    destruct (gomap.get (Annotations d) REPLICAS_MEMORY_ANNOTATION) as [value |].
    + destruct (strconv.Atoi value); auto.
      right. eexists. split; [| reflexivity]. reflexivity.
    + right. eexists. split; [| reflexivity]. reflexivity.
  - destruct (Annotations d) as [m |]; cbn [gomap.set]; [| auto].
    destruct (Bool.eqb targetState DISABLED); [| auto].
    right. eexists. split; [| reflexivity]. reflexivity.
Qed.

(** What every attempt keeps, the retry loop keeps. *)
Lemma RetryOnConflict_preserves (I : Clientset -> Prop)
    (fn : Clientset -> result unit * Clientset) :
  (forall c, I c -> I (snd (fn c))) ->
  forall steps lastErr c, I c -> I (snd (RetryOnConflict steps lastErr fn c)).
Proof.
  intros Hfn steps. induction steps as [| steps IH]; intros lastErr c Hc; simpl.
  - destruct lastErr; exact Hc.
  - specialize (Hfn c Hc). destruct (fn c) as [[[] | e | p] c1]; simpl in *; auto.
    destruct (IsConflict e); simpl; auto.
Qed.

Lemma ToggleDeployment_snd c namespace name targetState :
  snd (ToggleDeployment c namespace name targetState) =
  snd (RetryOnConflict DefaultRetrySteps None
         (toggleAttempt namespace name targetState) c).
Proof.
  unfold ToggleDeployment.
  destruct (RetryOnConflict _ _ _ _) as [[[] | e | p] c1]; reflexivity.
Qed.

Lemma ToggleDeployment_frame c namespace name targetState key :
  key <> (namespace, name) ->
  objects (snd (ToggleDeployment c namespace name targetState)) !! key
    = objects c !! key.
Proof.
  intros Hne. rewrite ToggleDeployment_snd.
  apply (RetryOnConflict_preserves
           (fun c1 => objects c1 !! key = objects c !! key)); [| reflexivity].
  intros c1 Hc1.
  destruct (toggleAttempt_writes_only_target namespace name targetState c1)
    as [-> | (d & Hname & ->)]; [exact Hc1 |].
  rewrite Update_frame by (rewrite Hname; exact Hne). exact Hc1.
Qed.

Lemma ToggleDeployment_dom c namespace name targetState :
  dom (objects (snd (ToggleDeployment c namespace name targetState)))
    = dom (objects c).
Proof.
  rewrite ToggleDeployment_snd.
  apply (RetryOnConflict_preserves
           (fun c1 => dom (objects c1) = dom (objects c))); [| reflexivity].
  intros c1 Hc1.
  destruct (toggleAttempt_writes_only_target namespace name targetState c1)
    as [-> | (d & _ & ->)]; [exact Hc1 |].
  rewrite Update_dom. exact Hc1.
Qed.

(** X7. Frame. Whatever its outcome, [ToggleDeployment] leaves every other
    workload of the cluster exactly as it was. *)
Theorem ToggleDeployment_touches_only_its_workload
    (c : Clientset) (namespace name : string) (targetState : DeploymentState)
    (key : string * string) :
  key <> (namespace, name) ->
  objects (snd (ToggleDeployment c namespace name targetState)) !! key
    = objects c !! key.
Proof.
  intros Hne. rewrite ToggleDeployment_snd.
  apply (RetryOnConflict_preserves
           (fun c1 => objects c1 !! key = objects c !! key)); [| reflexivity].
  intros c1 Hc1.
  destruct (toggleAttempt_writes_only_target namespace name targetState c1)
    as [-> | (d & Hname & ->)]; [exact Hc1 |].
  rewrite Update_frame by (rewrite Hname; exact Hne). exact Hc1.
Qed.

Lemma ToggleDeployment_touches_only_its_workload_witness :
  let c := cluster [plain "web" 3; bare "db" 1] [] in
  objects (snd (ToggleDeployment c "default" "web" DISABLED))
    !! ("default"%string, "db"%string)
  = Some (bare "db" 1).
Proof.
  intros c.
  rewrite (ToggleDeployment_touches_only_its_workload c "default" "web" DISABLED
             ("default"%string, "db"%string)); [reflexivity | discriminate].
Defined.

(** X8. [ToggleDeployment] neither creates nor deletes a workload: the set of
    stored keys is the same after the call, whatever its outcome. *)
Theorem ToggleDeployment_keeps_the_set_of_workloads
    (c : Clientset) (namespace name : string) (targetState : DeploymentState) :
  dom (objects (snd (ToggleDeployment c namespace name targetState)))
    = dom (objects c).
Proof.
  rewrite ToggleDeployment_snd.
  apply (RetryOnConflict_preserves
           (fun c1 => dom (objects c1) = dom (objects c))); [| reflexivity].
  intros c1 Hc1.
  destruct (toggleAttempt_writes_only_target namespace name targetState c1)
    as [-> | (d & _ & ->)]; [exact Hc1 |].
  rewrite Update_dom. exact Hc1.
Qed.

(** X9. A successful suspension of a running workload stores it with zero
    replicas and with its count in the replicas-memory annotation,
    replacing any older value; its other annotations, and its identity,
    are unchanged. *)
Theorem suspend_memorizes_the_count
    (c c1 : Clientset) (namespace name : string) (d : Deployment) (replicas : Z) :
  objects c !! (namespace, name) = Some d ->
  Replicas d = Some replicas ->
  replicas <> 0 ->
  ToggleDeployment c namespace name DISABLED = (Ok tt, c1) ->
  exists m,
    Annotations d = Some m /\
    objects c1 !! (namespace, name) =
      Some {| Namespace := namespace; Name := name;
              Annotations :=
                Some (<[REPLICAS_MEMORY_ANNOTATION := strconv.Itoa replicas]> m);
              Replicas := Some 0 |}.
Proof.
  intros Hd Hr Hnz Hdown.
  apply ToggleDeployment_Ok_inv in Hdown as (c0 & Hobj0 & Hdown).
  rewrite <- Hobj0 in Hd.
  destruct (toggleAttempt_suspend_Ok _ _ _ _ _ Hd Hdown)
    as [[Hzero _] | (n & m & Hr' & _ & Hm & Hobj1)]; [congruence |].
  assert (n = replicas) as -> by congruence.
  exists m. split; [exact Hm |]. rewrite Hobj1. apply lookup_insert_eq.
Qed.

Lemma suspend_memorizes_the_count_witness :
  let stale := {| Namespace := "default"; Name := "web";
                  Annotations := Some (<[REPLICAS_MEMORY_ANNOTATION := "9"]>
                                         {[ "team"%string := "payments"%string ]});
                  Replicas := Some 4 |} in
  let c := cluster [stale] [Some ReplyConflict] in
  let c1 := snd (ToggleDeployment c "default" "web" DISABLED) in
  exists m,
    Annotations stale = Some m /\
    objects c1 !! ("default"%string, "web"%string) =
      Some {| Namespace := "default"; Name := "web";
              Annotations := Some (<[REPLICAS_MEMORY_ANNOTATION := strconv.Itoa 4]> m);
              Replicas := Some 0 |}.
Proof.
  intros stale c c1.
  apply (suspend_memorizes_the_count c c1 "default" "web" stale 4);
    [reflexivity | reflexivity | lia | reflexivity].
Defined.

Lemma Atoi_result (value : string) :
  (exists i, strconv.Atoi value = Ok i) \/ strconv.Atoi value = Err (ErrAtoi value).
Proof.
  unfold strconv.Atoi.
  destruct (match value with
            | String "+"%char rest => (false, rest)
            | String "-"%char rest => (true, rest)
            | _ => (false, value)
            end) as [neg digits].
  destruct digits as [| c rest]; [auto |].
  destruct (strconv.parseDigits (String c rest) 0) as [n |]; [| auto].
  destruct ((strconv.minInt64 <=? (if neg then - n else n))
            && ((if neg then - n else n) <=? strconv.maxInt64)); eauto.
Qed.

(** X10. A memorized count that does not read as an integer: when the
    fetch returns the workload with zero replicas and such a value in
    replicas-memory, the call returns the conversion error, wrapped in
    "Update failed", and sends no update: the stored objects and the
    pending answers to updates are unchanged, and the workload stays
    suspended. *)
Theorem resume_with_unreadable_memory_fails
    (c : Clientset) (namespace name : string) (fetched : Deployment) (value : string) :
  Get c namespace name = Ok fetched ->
  Replicas fetched = Some 0 ->
  gomap.get (Annotations fetched) REPLICAS_MEMORY_ANNOTATION = Some value ->
  isErr (strconv.Atoi value) = true ->
  ToggleDeployment c namespace name ENABLED
    = (Err (ErrUpdateFailed (ErrAtoi value)), c).
Proof.
  intros Hfetch Hr Hv Hbad.
  apply Get_Ok_inv in Hfetch as (d & Hd & Hreplicas & Hannotations).
  rewrite Hreplicas in Hr. rewrite Hannotations in Hv.
  assert (Hatoi : strconv.Atoi value = Err (ErrAtoi value)).
  { destruct (Atoi_result value) as [(i & Hi) | He]; [| exact He].
    rewrite Hi in Hbad. discriminate. }
  unfold ToggleDeployment, DefaultRetrySteps.
  rewrite (RetryOnConflict_first_attempt _ _ _ _ (Err (ErrAtoi value)) c).
  - reflexivity.
  - unfold toggleAttempt. rewrite (Get_found _ _ _ _ Hd). simpl.
    rewrite Hr. simpl. rewrite Hv, Hatoi. reflexivity.
  - intros e He. inversion He. reflexivity.
Qed.

Lemma resume_with_unreadable_memory_fails_witness :
  let broken := {| Namespace := "default"; Name := "web";
                   Annotations := Some {[ REPLICAS_MEMORY_ANNOTATION := "three"%string ]};
                   Replicas := Some 0 |} in
  let c := cluster [broken] [None] in
  ToggleDeployment c "default" "web" ENABLED
    = (Err (ErrUpdateFailed (ErrAtoi "three")), c).
Proof.
  intros broken c.
  apply (resume_with_unreadable_memory_fails c "default" "web" broken "three");
    reflexivity.
Defined.

(** X11. The two variants agree: one attempt of [ToggleDeployment] is the
    fetch followed by what [AttemptToggleDeployment] does with the fetched
    object, with the same result and the same effect on the cluster. *)
Theorem toggleAttempt_is_AttemptToggleDeployment_on_fetched
    (c : Clientset) (namespace name : string) (targetState : DeploymentState) :
  toggleAttempt namespace name targetState c =
    match Get c namespace name with
    | Ok fetched =>
        let '(r, _, c') := AttemptToggleDeployment c fetched targetState in (r, c')
    | Err getErr => (Err (ErrGetFailed getErr), c)
    | Panic p => (Panic p, c)
    end.
Proof.
  unfold toggleAttempt, AttemptToggleDeployment, Get.
  destruct (objects c !! (namespace, name)) as [d |]; [| reflexivity].
  cbn [Replicas Annotations Namespace].
  destruct (Replicas d) as [replicas |]; [| reflexivity].
  destruct (Z.eqb_spec replicas 0) as [Hz | Hnz]; cbn [negb].
  - destruct (Bool.eqb targetState DISABLED); [reflexivity |].
    unfold withAnnotations. cbn [Replicas Annotations Namespace Name].
    destruct (gomap.get (Annotations d) REPLICAS_MEMORY_ANNOTATION) as [value |].
    + destruct (strconv.Atoi value); try reflexivity.
      destruct (Update c namespace _); reflexivity.
    + destruct (Update c namespace _); reflexivity.
  - destruct (Annotations d) as [m |]; cbn [gomap.set]; [| reflexivity].
    destruct (Bool.eqb targetState DISABLED); [| reflexivity].
    destruct (Update c namespace _); reflexivity.
Qed.

(** X12. A successful [AttemptToggleDeployment] keeps the identity of the
    object of the caller, which it changes in place, and either did not
    call the API, the cluster being as before (the object may then carry
    a memorized count that the cluster does not), or left the cluster
    storing the object exactly as the caller now holds it. *)
Theorem AttemptToggleDeployment_stores_callers_object
    (c c' : Clientset) (d d' : Deployment) (targetState : DeploymentState) :
  AttemptToggleDeployment c d targetState = (Ok tt, d', c') ->
  Namespace d' = Namespace d /\ Name d' = Name d /\
  (c' = c \/ objects c' !! (Namespace d, Name d) = Some d').
Proof.
  unfold AttemptToggleDeployment.
  destruct (Replicas d) as [replicas |]; [| discriminate].
  destruct (Z.eqb_spec replicas 0) as [Hz | Hnz]; cbn [negb].
  - destruct (Bool.eqb targetState DISABLED).
    + intros H. inversion H; subst. auto.
    + destruct (gomap.get (Annotations d) REPLICAS_MEMORY_ANNOTATION) as [value |].
      * destruct (strconv.Atoi value) as [i | e | p]; try discriminate.
        destruct (Update c (Namespace d) _) as [r c1] eqn:Hu.
        intros H. inversion H; subst. apply Update_Ok_objects in Hu.
        repeat split. right. rewrite Hu. apply lookup_insert_eq.
      * destruct (Update c (Namespace d) _) as [r c1] eqn:Hu.
        intros H. inversion H; subst. apply Update_Ok_objects in Hu.
        repeat split. right. rewrite Hu. apply lookup_insert_eq.
  - destruct (Annotations d) as [m |]; cbn [gomap.set]; [| discriminate].
    destruct (Bool.eqb targetState DISABLED).
    + destruct (Update c (Namespace d) _) as [r c1] eqn:Hu.
      intros H. inversion H; subst. apply Update_Ok_objects in Hu.
      repeat split. right. rewrite Hu. apply lookup_insert_eq.
    + intros H. inversion H; subst. auto.
Qed.

Lemma AttemptToggleDeployment_stores_callers_object_witness :
  let c := cluster [plain "web" 3] [] in
  let '(_, d', c') := AttemptToggleDeployment c (plain "web" 3) DISABLED in
  Namespace d' = "default"%string /\ Name d' = "web"%string /\
  (c' = c \/ objects c' !! ("default"%string, "web"%string) = Some d').
Proof.
  apply (AttemptToggleDeployment_stores_callers_object
           (cluster [plain "web" 3] []) _ (plain "web" 3) _ DISABLED).
  reflexivity.
Defined.

(** ** More about the schedule parser *)

Lemma Parse_never_panics value : isPanic (time.Parse_15_04 value) = false.
Proof.
  unfold time.Parse_15_04.
  destruct (time.getnum value false) as [[hour rest] |]; [| reflexivity].
  destruct ((hour <? 0) || (24 <=? hour)); [reflexivity |].
  destruct rest as [| c rest']; [reflexivity |].
  destruct (Ascii.eqb_spec c ":"%char) as [-> | Hc].
  - destruct (time.getnum rest' true) as [[min rest''] |]; [| reflexivity].
    destruct ((min <? 0) || (60 <=? min)); [reflexivity |].
    destruct rest''; reflexivity.
  - destruct c as [[] [] [] [] [] [] [] []]; try reflexivity. congruence.
Qed.

Lemma Parse_Ok_valid value t : time.Parse_15_04 value = Ok t -> validTime t.
Proof.
  unfold time.Parse_15_04, validTime.
  destruct (time.getnum value false) as [[hour rest] |]; [| discriminate].
  destruct (Z.ltb_spec hour 0) as [? | Hh0]; [discriminate |].
  destruct (Z.leb_spec 24 hour) as [? | Hh1]; [discriminate |]. cbn [orb].
  destruct rest as [| c rest']; [discriminate |].
  destruct (Ascii.eqb_spec c ":"%char) as [-> | Hc].
  - destruct (time.getnum rest' true) as [[min rest''] |]; [| discriminate].
    destruct (Z.ltb_spec min 0) as [? | Hm0]; [discriminate |].
    destruct (Z.leb_spec 60 min) as [? | Hm1]; [discriminate |]. cbn [orb].
    destruct rest''; [| discriminate].
    intros Hok. inversion Hok; subst. simpl. lia.
  - destruct c as [[] [] [] [] [] [] [] []]; try discriminate. congruence.
Qed.

(** X13. Every range the parser returns is made of two times of the day: hours
    from 0 to 23 and minutes from 0 to 59. *)
Theorem parseScheduleAnnotation_returns_times_of_day
    (annotations : option (gmap string string)) (range : TimeRange) :
  parseScheduleAnnotation annotations = Ok range ->
  validTime (Start range) /\ validTime (End range).
Proof.
  unfold parseScheduleAnnotation.
  destruct (gomap.get annotations SCHEDULE_ANNOTATION) as [text |]; [| discriminate].
  destruct (strings.Split text "-" !! 0%nat) as [token0 |]; [| discriminate].
  destruct (time.Parse_15_04 (strings.Trim token0 " ")) as [start | e | p] eqn:Hstart;
    try discriminate.
  destruct (strings.Split text "-" !! 1%nat) as [token1 |]; [| discriminate].
  destruct (time.Parse_15_04 (strings.Trim token1 " ")) as [end_ | e | p] eqn:Hend;
    try discriminate.
  intros H. inversion H; subst. simpl.
  split; eapply Parse_Ok_valid; eassumption.
Qed.

Lemma parseScheduleAnnotation_returns_times_of_day_witness :
  validTime (time.at_ 22 0) /\ validTime (time.at_ 6 0).
Proof.
  apply (parseScheduleAnnotation_returns_times_of_day (scheduleOf "22:00 - 6:00")
           {| Start := time.at_ 22 0; End := time.at_ 6 0 |}).
  reflexivity.
Defined.

Lemma Split_single s sep token :
  strings.Split s sep = [token] ->
  token = s /\ ~ In sep (list_ascii_of_string s).
Proof.
  revert token. induction s as [| c rest IH]; intros token H; simpl in *.
  - inversion H. auto.
  - destruct (Ascii.eqb_spec c sep) as [-> | Hc].
    + destruct (Split_nonempty rest sep) as (t & ts & Hs). rewrite Hs in H. discriminate.
    + destruct (strings.Split rest sep) as [| t ts] eqn:Hs.
      * destruct (Split_nonempty rest sep) as (t & ts & Hs'). congruence.
      * inversion H; subst. destruct (IH t eq_refl) as [-> Hnot].
        split; [reflexivity |]. intros [Heq | Hin]; [congruence | contradiction].
Qed.

Lemma Split_without_separator s sep :
  ~ In sep (list_ascii_of_string s) -> strings.Split s sep = [s].
Proof.
  induction s as [| c rest IH]; intros Hnot; simpl in *; [reflexivity |].
  destruct (Ascii.eqb_spec c sep) as [-> | Hc]; [tauto |].
  rewrite IH by tauto. reflexivity.
Qed.

(** X14. The parser panics exactly on the values that have no '-' and whose
    text, once trimmed, is a valid time; the panic is the index 1 out of
    range of a slice of length 1.  On every other input it returns a
    range or an error. *)
Theorem parseScheduleAnnotation_panics_iff
    (annotations : option (gmap string string)) (p : panic) :
  parseScheduleAnnotation annotations = Panic p <->
  p = IndexOutOfRange 1 1 /\
  exists text,
    gomap.get annotations SCHEDULE_ANNOTATION = Some text /\
    ~ In "-"%char (list_ascii_of_string text) /\
    isOk (time.Parse_15_04 (strings.Trim text " ")) = true.
Proof.
  split.
  - unfold parseScheduleAnnotation.
    destruct (gomap.get annotations SCHEDULE_ANNOTATION) as [text |]; [| discriminate].
    destruct (Split_nonempty text "-") as (token0 & tokens & Hs). rewrite Hs. simpl.
    pose proof (Parse_never_panics (strings.Trim token0 " ")) as Hnp0.
    destruct (time.Parse_15_04 (strings.Trim token0 " ")) as [start | e | p0] eqn:Hstart;
      try discriminate.
    destruct tokens as [| token1 tokens].
    + intros H. inversion H. split; [reflexivity |]. exists text.
      destruct (Split_single _ _ _ Hs) as [-> Hnot].
      rewrite Hstart. auto.
    + simpl.
      pose proof (Parse_never_panics (strings.Trim token1 " ")) as Hnp1.
      destruct (time.Parse_15_04 (strings.Trim token1 " ")); discriminate.
  - intros (-> & text & Hget & Hnot & Hok).
    destruct (time.Parse_15_04 (strings.Trim text " ")) as [start | e | p0] eqn:Hstart;
      try discriminate.
    eapply parse_single_token_panics;
      [exact Hget | apply Split_without_separator; exact Hnot | exact Hstart].
Qed.

Lemma append_cons c (s t : string) :
  (String c s ++ t)%string = String c (s ++ t)%string.
Proof. reflexivity. Qed.

Lemma append_empty_l (t : string) : ("" ++ t)%string = t.
Proof. reflexivity. Qed.

Lemma append_empty_r (s : string) : (s ++ "")%string = s.
Proof.
  induction s as [| c s IH]; [reflexivity |].
  rewrite append_cons, IH. reflexivity.
Qed.

Lemma getnum_twoDigits x rest fixed :
  0 <= x < 100 ->
  time.getnum (time.twoDigits x ++ rest) fixed = Some (x, rest).
Proof.
  intros Hx. unfold time.twoDigits. rewrite !append_cons, append_empty_l.
  cbn [time.getnum].
  assert (Hhi : 0 <= x / 10 < 10)
    by (split; [apply Z.div_pos; lia | apply Z.div_lt_upper_bound; lia]).
  assert (Hlo : 0 <= x mod 10 < 10) by (apply Z.mod_pos_bound; lia).
  destruct (digitChar_digit _ Hhi) as [Hd1 Hv1].
  destruct (digitChar_digit _ Hlo) as [Hd0 Hv0].
  rewrite Hd1, Hd0, Hv1, Hv0. do 2 f_equal.
  pose proof (Z.div_mod x 10). lia.
Qed.

Lemma Parse_Format (t : time.Time) :
  validTime t ->
  time.Parse_15_04 (time.Format_15_04 t) = Ok t.
Proof.
  intros [Hh Hm]. destruct t as [h m]. simpl in Hh, Hm.
  unfold time.Parse_15_04, time.Format_15_04. cbn [time.Hour time.Minute].
  rewrite getnum_twoDigits by lia.
  replace ((h <? 0) || (24 <=? h)) with false
    by (symmetry; apply orb_false_iff; split; [apply Z.ltb_ge | apply Z.leb_gt]; lia).
  rewrite append_cons, append_empty_l.
  rewrite <- (append_empty_r (time.twoDigits m)).
  rewrite getnum_twoDigits by lia.
  replace ((m <? 0) || (60 <=? m)) with false
    by (symmetry; apply orb_false_iff; split; [apply Z.ltb_ge | apply Z.leb_gt]; lia).
  reflexivity.
Qed.

(** X15. The text that [InRangeNow] formats from the wall clock always parses
    back, to the hour and the minute of the clock: the error that
    [InRangeNow] ignores is never set. *)
Theorem Parse_reads_back_Format (t : time.Time) :
  validTime t ->
  time.Parse_15_04 (time.Format_15_04 t) = Ok t.
Proof.
  intros [Hh Hm]. destruct t as [h m]. simpl in Hh, Hm.
  unfold time.Parse_15_04, time.Format_15_04. cbn [time.Hour time.Minute].
  rewrite getnum_twoDigits by lia.
  replace ((h <? 0) || (24 <=? h)) with false
    by (symmetry; apply orb_false_iff; split; [apply Z.ltb_ge | apply Z.leb_gt]; lia).
  rewrite append_cons, append_empty_l.
  rewrite <- (append_empty_r (time.twoDigits m)).
  rewrite getnum_twoDigits by lia.
  replace ((m <? 0) || (60 <=? m)) with false
    by (symmetry; apply orb_false_iff; split; [apply Z.ltb_ge | apply Z.leb_gt]; lia).
  reflexivity.
Qed.

Lemma Parse_reads_back_Format_witness :
  time.Parse_15_04 (time.Format_15_04 (time.at_ 7 5)) = Ok (time.at_ 7 5).
Proof.
  apply (Parse_reads_back_Format (time.at_ 7 5)). unfold validTime. simpl. lia.
Defined.

Lemma In_append c (x y : string) :
  In c (list_ascii_of_string (x ++ y)) <->
  In c (list_ascii_of_string x) \/ In c (list_ascii_of_string y).
Proof.
  induction x as [| a x IH].
  - rewrite append_empty_l. simpl. tauto.
  - rewrite append_cons. simpl. rewrite IH. tauto.
Qed.

Lemma In_spaces c n : In c (list_ascii_of_string (spaces n)) -> c = " "%char.
Proof.
  induction n as [| n IH]; simpl; [tauto |]. intros [H | H]; [congruence | auto].
Qed.

Lemma In_twoDigits c x :
  0 <= x < 100 ->
  In c (list_ascii_of_string (time.twoDigits x)) -> strconv.isDigit c = true.
Proof.
  intros Hx. unfold time.twoDigits. simpl.
  assert (Hhi : 0 <= x / 10 < 10)
    by (split; [apply Z.div_pos; lia | apply Z.div_lt_upper_bound; lia]).
  assert (Hlo : 0 <= x mod 10 < 10) by (apply Z.mod_pos_bound; lia).
  intros [<- | [<- | []]]; [apply (digitChar_digit _ Hhi) | apply (digitChar_digit _ Hlo)].
Qed.

(** A formatted time is made of digits and a colon. *)
Lemma In_Format c t :
  validTime t ->
  In c (list_ascii_of_string (time.Format_15_04 t)) ->
  c <> "-"%char /\ c <> " "%char.
Proof.
  intros [Hh Hm]. unfold time.Format_15_04.
  rewrite In_append, append_cons, append_empty_l. simpl.
  intros [H | [<- | H]].
  - apply In_twoDigits in H; [| lia]. split; intros ->; discriminate.
  - split; discriminate.
  - apply In_twoDigits in H; [| lia]. split; intros ->; discriminate.
Qed.

Lemma In_padded c before t after :
  validTime t ->
  In c (list_ascii_of_string (padded before t after)) -> c <> "-"%char.
Proof.
  intros Ht. unfold padded. rewrite !In_append.
  intros [H | [H | H]].
  - apply In_spaces in H. subst. discriminate.
  - apply (In_Format _ _ Ht H).
  - apply In_spaces in H. subst. discriminate.
Qed.

Lemma Split_at_separator (x y : string) sep :
  ~ In sep (list_ascii_of_string x) ->
  strings.Split (x ++ String sep y) sep = x :: strings.Split y sep.
Proof.
  induction x as [| c x IH]; intros Hnot.
  - rewrite append_empty_l. simpl. rewrite Ascii.eqb_refl. reflexivity.
  - rewrite append_cons. simpl in *.
    destruct (Ascii.eqb_spec c sep) as [-> | Hc]; [tauto |].
    rewrite IH by tauto. reflexivity.
Qed.

Lemma TrimLeft_spaces n (x : string) :
  strings.TrimLeft (spaces n ++ x) " " = strings.TrimLeft x " ".
Proof.
  induction n as [| n IH]; [reflexivity |].
  cbn [spaces]. rewrite append_cons. simpl. exact IH.
Qed.

Lemma TrimLeft_nothing (x : string) :
  (forall c, In c (list_ascii_of_string x) -> c <> " "%char) ->
  forall y, strings.TrimLeft (x ++ spaces y) " " = (x ++ spaces y)%string
            \/ x = EmptyString.
Proof.
  intros Hx y. destruct x as [| c x]; [auto |]. left.
  rewrite append_cons. simpl.
  destruct (Ascii.eqb_spec c " "%char) as [-> | Hc]; [| reflexivity].
  exfalso. apply (Hx " "%char); simpl; auto.
Qed.

Lemma TrimRight_spaces n : strings.TrimRight (spaces n) " " = EmptyString.
Proof. induction n as [| n IH]; simpl; [reflexivity | rewrite IH; reflexivity]. Qed.

Lemma TrimRight_pad (x : string) n :
  (forall c, In c (list_ascii_of_string x) -> c <> " "%char) ->
  strings.TrimRight (x ++ spaces n) " " = x.
Proof.
  induction x as [| c x IH]; intros Hx.
  - rewrite append_empty_l. apply TrimRight_spaces.
  - rewrite append_cons. simpl. rewrite IH by (intros a Ha; apply Hx; simpl; auto).
    destruct x as [| c' x']; [| reflexivity].
    destruct (Ascii.eqb_spec c " "%char) as [-> | Hc]; [| reflexivity].
    exfalso. apply (Hx " "%char); simpl; auto.
Qed.

Lemma Trim_padded before t after :
  validTime t ->
  strings.Trim (padded before t after) " " = time.Format_15_04 t.
Proof.
  intros Ht. unfold strings.Trim, padded. rewrite TrimLeft_spaces.
  assert (Hns : forall c, In c (list_ascii_of_string (time.Format_15_04 t)) ->
                          c <> " "%char)
    by (intros c Hc; apply (In_Format _ _ Ht Hc)).
  destruct (TrimLeft_nothing _ Hns after) as [-> | Hempty].
  - apply TrimRight_pad; exact Hns.
  - unfold time.Format_15_04, time.twoDigits in Hempty.
    rewrite append_cons in Hempty. discriminate.
Qed.

(** X16. Round trip. A schedule written as two times of the day, each with two
    digits for the hour and for the minute, separated by '-', parses to
    those two times, with any number of spaces before and after each
    time. *)
Theorem parseScheduleAnnotation_reads_formatted_schedule
    (start end_ : time.Time) (a b c d : nat) :
  validTime start ->
  validTime end_ ->
  parseScheduleAnnotation
    (scheduleOf (padded a start b ++ "-" ++ padded c end_ d))
  = Ok {| Start := start; End := end_ |}.
Proof.
  intros Hs He.
  eapply parse_ignores_extra_tokens with (tokens := []).
  - unfold scheduleOf. simpl. apply lookup_singleton_eq.
  - rewrite append_cons, append_empty_l.
    rewrite Split_at_separator
      by (intros Hin; apply (In_padded _ _ _ _ Hs Hin); reflexivity).
    rewrite Split_without_separator
      by (intros Hin; apply (In_padded _ _ _ _ He Hin); reflexivity).
    reflexivity.
  - rewrite Trim_padded by exact Hs. apply Parse_Format; exact Hs.
  - rewrite Trim_padded by exact He. apply Parse_Format; exact He.
Qed.

Lemma parseScheduleAnnotation_reads_formatted_schedule_witness :
  parseScheduleAnnotation (scheduleOf " 22:00  - 06:30")
  = Ok {| Start := time.at_ 22 0; End := time.at_ 6 30 |}.
Proof.
  apply (parseScheduleAnnotation_reads_formatted_schedule
           (time.at_ 22 0) (time.at_ 6 30) 1 2 1 0);
    unfold validTime; simpl; lia.
Defined.

(** ** More about the time-range test *)

(** X17. Swapping the bounds of a range complements it: away from the two
    bounds, now is in the range from [a] to [b] exactly when it is not in
    the range from [b] to [a]; a night schedule is the day schedule turned
    around. *)
Theorem InRangeNow_swapped_bounds (a b now : time.Time) :
  time.minuteOfDay a <> time.minuteOfDay b ->
  time.minuteOfDay now <> time.minuteOfDay a ->
  time.minuteOfDay now <> time.minuteOfDay b ->
  InRangeNow {| Start := a; End := b |} now
    = negb (InRangeNow {| Start := b; End := a |} now).
Proof.
  intros Hab Ha Hb. unfold InRangeNow, time.Before, time.After. simpl.
  destruct (Z.ltb_spec (time.minuteOfDay b) (time.minuteOfDay a));
    destruct (Z.ltb_spec (time.minuteOfDay a) (time.minuteOfDay b));
    destruct (Z.ltb_spec (time.minuteOfDay a) (time.minuteOfDay now));
    destruct (Z.ltb_spec (time.minuteOfDay now) (time.minuteOfDay b));
    destruct (Z.ltb_spec (time.minuteOfDay b) (time.minuteOfDay now));
    destruct (Z.ltb_spec (time.minuteOfDay now) (time.minuteOfDay a));
    simpl; try reflexivity; lia.
Qed.

Lemma InRangeNow_swapped_bounds_witness :
  InRangeNow {| Start := time.at_ 22 0; End := time.at_ 6 0 |} (time.at_ 12 0)
    = negb (InRangeNow {| Start := time.at_ 6 0; End := time.at_ 22 0 |} (time.at_ 12 0)).
Proof.
  apply (InRangeNow_swapped_bounds (time.at_ 22 0) (time.at_ 6 0) (time.at_ 12 0));
    discriminate.
Defined.

(** ** More about the reconciliation loop *)

(** What the loop does with one key: it stops on a panic, or goes on with
    a cluster and a log. *)
Lemma loopKeys_cons now indexer key c log :
  exists step : result unit * Clientset * list LogEntry,
    (forall keys', loopKeys now indexer (key :: keys') c log =
       match step with
       | (Ok tt, c1, log1) => loopKeys now indexer keys' c1 log1
       | stopped => stopped
       end) /\
    isErr (fst (fst step)) = false /\
    (exists suffix, snd step = log ++ suffix) /\
    (snd (fst step) = c \/
     exists object targetState,
       GetByKey indexer key = LookupFound object /\
       isEnabled object = true /\
       snd (fst step) =
         snd (ToggleDeployment c (Namespace object) (Name object) targetState)).
Proof.
  assert (Hskip : forall log1,
            (exists suffix, log1 = log ++ suffix) ->
            exists step : result unit * Clientset * list LogEntry,
              (forall keys', loopKeys now indexer keys' c log1 =
                 match step with
                 | (Ok tt, c1, log2) => loopKeys now indexer keys' c1 log2
                 | stopped => stopped
                 end) /\
              isErr (fst (fst step)) = false /\
              (exists suffix, snd step = log ++ suffix) /\
              (snd (fst step) = c \/
               exists object targetState,
                 GetByKey indexer key = LookupFound object /\
                 isEnabled object = true /\
                 snd (fst step) =
                   snd (ToggleDeployment c (Namespace object) (Name object) targetState))).
  { intros log1 Hlog1. exists (Ok tt, c, log1). simpl. auto. }
  assert (Hnil : exists suffix, log = log ++ suffix) by (exists []; rewrite app_nil_r; auto).
  destruct (GetByKey indexer key) as [| | object] eqn:Hkey.
  - destruct (Hskip (log ++ [LogLookupError key])) as (step & Hstep & Hrest); [eauto |].
    exists step. split; [| exact Hrest].
    intros keys'. simpl. rewrite Hkey. apply Hstep.
  - destruct (Hskip log Hnil) as (step & Hstep & Hrest).
    exists step. split; [| exact Hrest].
    intros keys'. simpl. rewrite Hkey. apply Hstep.
  - destruct (gomap.get (Annotations object) ENABLED_ANNOTATION) as [value |] eqn:Hen.
    2:{ destruct (Hskip log Hnil) as (step & Hstep & Hrest).
        exists step. split; [| exact Hrest].
        intros keys'. simpl. rewrite Hkey, Hen. apply Hstep. }
    destruct (String.eqb (strings.ToLower value) "true") eqn:Htrue.
    2:{ destruct (Hskip log Hnil) as (step & Hstep & Hrest).
        exists step. split; [| exact Hrest].
        intros keys'. simpl. rewrite Hkey, Hen, Htrue. apply Hstep. }
    assert (Henabled : isEnabled object = true)
      by (unfold isEnabled; rewrite Hen; exact Htrue).
    destruct (parseScheduleAnnotation (Annotations object)) as [schedule | err | p] eqn:Hparse.
    + set (targetState := if InRangeNow schedule now then DISABLED else ENABLED).
      destruct (ToggleDeployment c (Namespace object) (Name object) targetState)
        as [[[] | err | p] c1] eqn:Htoggle.
      * exists (Ok tt, c1, log ++ [LogChecking key]). split; [| split; [| split]].
        -- intros keys'. simpl. rewrite Hkey, Hen, Htrue, Hparse.
           subst targetState. destruct (InRangeNow schedule now);
             rewrite Htoggle; reflexivity.
        -- reflexivity.
        -- eauto.
        -- right. exists object, targetState. rewrite Htoggle. auto.
      * exists (Ok tt, c1, (log ++ [LogChecking key]) ++ [LogError err]).
        split; [| split; [| split]].
        -- intros keys'. simpl. rewrite Hkey, Hen, Htrue, Hparse.
           subst targetState. destruct (InRangeNow schedule now);
             rewrite Htoggle; reflexivity.
        -- reflexivity.
        -- exists [LogChecking key; LogError err]. simpl.
           rewrite <- app_assoc. reflexivity.
        -- right. exists object, targetState. rewrite Htoggle. auto.
      * exists (Panic p, c1, log ++ [LogChecking key]). split; [| split; [| split]].
        -- intros keys'. simpl. rewrite Hkey, Hen, Htrue, Hparse.
           subst targetState. destruct (InRangeNow schedule now);
             rewrite Htoggle; reflexivity.
        -- reflexivity.
        -- eauto.
        -- right. exists object, targetState. rewrite Htoggle. auto.
    + destruct (Hskip ((log ++ [LogChecking key]) ++ [LogError err])) as (step & Hstep & Hrest).
      { exists [LogChecking key; LogError err]. rewrite <- app_assoc. reflexivity. }
      exists step. split; [| exact Hrest].
      intros keys'. simpl. rewrite Hkey, Hen, Htrue, Hparse. apply Hstep.
    + exists (Panic p, c, log ++ [LogChecking key]). split; [| split; [| split]].
      * intros keys'. simpl. rewrite Hkey, Hen, Htrue, Hparse. reflexivity.
      * reflexivity.
      * eauto.
      * auto.
Qed.

(** X18. A tick over a list of keys is the tick over its first part followed,
    unless that one panicked, by the tick over the rest, from the cluster
    and the log the first part left. *)
Theorem loopKeys_app now indexer (keys1 keys2 : list string) :
  forall c log,
    loopKeys now indexer (keys1 ++ keys2) c log =
      match loopKeys now indexer keys1 c log with
      | (Ok tt, c1, log1) => loopKeys now indexer keys2 c1 log1
      | stopped => stopped
      end.
Proof.
  induction keys1 as [| key keys1 IH]; intros c log; [reflexivity |].
  destruct (loopKeys_cons now indexer key c log) as (step & Hstep & Hnoerr & _).
  rewrite <- app_comm_cons, !Hstep.
  destruct step as [[[[] | e | p] c1] log1]; simpl in Hnoerr.
  - apply IH.
  - discriminate.
  - reflexivity.
Qed.

(** X19. A tick changes nothing but the workloads that the informer holds with
    the scheduler enabled: every other stored workload is exactly as
    before, whether the tick completes or panics. *)
Theorem tick_touches_only_enabled_workloads
    now indexer (keys : list string) (target : string * string) :
  (forall key object,
     In key keys ->
     GetByKey indexer key = LookupFound object ->
     isEnabled object = true ->
     (Namespace object, Name object) <> target) ->
  forall c log,
    objects (snd (fst (loopKeys now indexer keys c log))) !! target
      = objects c !! target.
Proof.
  induction keys as [| key keys IH]; intros Hother c log; [reflexivity |].
  destruct (loopKeys_cons now indexer key c log) as (step & Hstep & Hnoerr & _ & Hc).
  rewrite Hstep.
  assert (Hstepc : objects (snd (fst step)) !! target = objects c !! target).
  { destruct Hc as [-> | (object & targetState & Hkey & Hen & ->)]; [reflexivity |].
    apply ToggleDeployment_frame. intros Heq.
    apply (Hother key object); simpl; auto. }
  destruct step as [[[[] | e | p] c1] log1]; simpl in *.
  - rewrite IH; [exact Hstepc |].
    intros k o Hin. apply Hother. simpl. auto.
  - discriminate.
  - exact Hstepc.
Qed.

Lemma tick_touches_only_enabled_workloads_witness :
  let a := scheduled "a" "22:00-06:00" 2 in
  let b := plain "b" 3 in
  objects (snd (fst (loopKeys (time.at_ 23 30) (mirror [a; b])
                       ["default/a"; "default/b"]%string (cluster [a; b] []) [])))
    !! ("default"%string, "b"%string)
  = objects (cluster [a; b] []) !! ("default"%string, "b"%string).
Proof.
  intros a b.
  apply (tick_touches_only_enabled_workloads (time.at_ 23 30) (mirror [a; b])
           ["default/a"; "default/b"]%string ("default"%string, "b"%string)).
  intros key object [<- | [<- | []]] Hfound Hen;
    vm_compute in Hfound; inversion Hfound; subst object;
    [discriminate | vm_compute in Hen; discriminate].
Defined.

(** The two calls the loop makes, when the API accepts the update. *)
Lemma ToggleDeployment_suspend_accepted c namespace name d replicas m :
  objects c !! (namespace, name) = Some d ->
  Replicas d = Some replicas ->
  replicas <> 0 ->
  Annotations d = Some m ->
  head (replies c) = None \/ head (replies c) = Some None ->
  ToggleDeployment c namespace name DISABLED =
    (Ok tt,
     {| objects :=
          <[(namespace, name) :=
              {| Namespace := namespace; Name := name;
                 Annotations :=
                   Some (<[REPLICAS_MEMORY_ANNOTATION := strconv.Itoa replicas]> m);
                 Replicas := Some 0 |}]> (objects c);
        replies := tail (replies c) |}).
Proof.
  intros Hd Hr Hnz Hm Hacc.
  pose proof (toggleAttempt_suspend_step c namespace name d replicas m Hd Hr Hnz Hm)
    as Hstep.
  rewrite (Update_accepted c namespace
             {| Namespace := namespace; Name := name;
                Annotations :=
                  Some (<[REPLICAS_MEMORY_ANNOTATION := strconv.Itoa replicas]> m);
                Replicas := Some 0 |} d Hacc Hd) in Hstep.
  unfold ToggleDeployment, DefaultRetrySteps.
  rewrite (RetryOnConflict_first_attempt _ _ _ _ _ _ Hstep); [reflexivity |].
  discriminate.
Qed.

Lemma ToggleDeployment_resume_accepted c namespace name d value i :
  objects c !! (namespace, name) = Some d ->
  Replicas d = Some 0 ->
  gomap.get (Annotations d) REPLICAS_MEMORY_ANNOTATION = Some value ->
  strconv.Atoi value = Ok i ->
  head (replies c) = None \/ head (replies c) = Some None ->
  ToggleDeployment c namespace name ENABLED =
    (Ok tt,
     {| objects :=
          <[(namespace, name) :=
              {| Namespace := namespace; Name := name;
                 Annotations := gomap.del (Annotations d) REPLICAS_MEMORY_ANNOTATION;
                 Replicas := Some (int32 i) |}]> (objects c);
        replies := tail (replies c) |}).
Proof.
  intros Hd Hr Hv Hi Hacc.
  pose proof (toggleAttempt_resume_step c namespace name d value i Hd Hr Hv Hi) as Hstep.
  rewrite (Update_accepted c namespace
             {| Namespace := namespace; Name := name;
                Annotations := gomap.del (Annotations d) REPLICAS_MEMORY_ANNOTATION;
                Replicas := Some (int32 i) |} d Hacc Hd) in Hstep.
  unfold ToggleDeployment, DefaultRetrySteps.
  rewrite (RetryOnConflict_first_attempt _ _ _ _ _ _ Hstep); [reflexivity |].
  discriminate.
Qed.

Lemma loopKeys_passes_over now indexer (skipped rest : list string) :
  (forall key, In key skipped -> passedOver indexer key) ->
  forall c log,
    loopKeys now indexer (skipped ++ rest) c log = loopKeys now indexer rest c log.
Proof.
  induction skipped as [| key skipped IH]; intros Hskip c log; [reflexivity |].
  rewrite <- app_comm_cons.
  assert (Hrest : loopKeys now indexer (skipped ++ rest) c log
                  = loopKeys now indexer rest c log)
    by (apply IH; intros k Hk; apply Hskip; simpl; auto).
  destruct (Hskip key (or_introl eq_refl)) as [Habsent | (object & Hfound & Hen)].
  - simpl. rewrite Habsent. exact Hrest.
  - unfold isEnabled in Hen. simpl. rewrite Hfound.
    destruct (gomap.get (Annotations object) ENABLED_ANNOTATION) as [value |];
      [rewrite Hen |]; exact Hrest.
Qed.

Lemma loopKeys_all_passed_over now indexer (skipped : list string) :
  (forall key, In key skipped -> passedOver indexer key) ->
  forall c log, loopKeys now indexer skipped c log = (Ok tt, c, log).
Proof.
  intros Hskip c log.
  rewrite <- (app_nil_r skipped), loopKeys_passes_over by exact Hskip.
  reflexivity.
Qed.

(** X20. Two ticks around the end of the window. A workload that is the
    only one the informer holds enabled, with a valid schedule, running
    with a positive replica count and an annotation map, on a cluster
    that accepts the updates: a tick inside the window completes and
    stores it with zero replicas and the count memorized, and a following
    tick outside the window completes and stores it with its count back
    and the memory removed, its other annotations untouched. *)
Theorem tick_suspends_then_resumes
    (now1 now2 : time.Time) (indexer : Indexer)
    (before after : list string) (key : string) (object : Deployment)
    (schedule : TimeRange) (c : Clientset) (d : Deployment)
    (replicas : Z) (m : gmap string string) :
  ListKeys indexer = before ++ key :: after ->
  (forall other, In other (before ++ after) -> passedOver indexer other) ->
  GetByKey indexer key = LookupFound object ->
  isEnabled object = true ->
  parseScheduleAnnotation (Annotations object) = Ok schedule ->
  objects c !! (Namespace object, Name object) = Some d ->
  Replicas d = Some replicas ->
  0 < replicas < 2 ^ 31 ->
  Annotations d = Some m ->
  replies c = [] ->
  InRangeNow schedule now1 = true ->
  InRangeNow schedule now2 = false ->
  exists c1 c2,
    fst (loopIteration now1 indexer c) = (Ok tt, c1) /\
    objects c1 !! (Namespace object, Name object) =
      Some {| Namespace := Namespace object; Name := Name object;
              Annotations :=
                Some (<[REPLICAS_MEMORY_ANNOTATION := strconv.Itoa replicas]> m);
              Replicas := Some 0 |} /\
    fst (loopIteration now2 indexer c1) = (Ok tt, c2) /\
    objects c2 !! (Namespace object, Name object) =
      Some {| Namespace := Namespace object; Name := Name object;
              Annotations := Some (delete REPLICAS_MEMORY_ANNOTATION m);
              Replicas := Some replicas |}.
Proof.
  intros Hkeys Hothers Hkey Hen Hparse Hd Hr Hrange Hm Hrep Hin Hout.
  assert (Hbefore : forall k, In k before -> passedOver indexer k)
    by (intros k Hk; apply Hothers, in_or_app; auto).
  assert (Hafter : forall k, In k after -> passedOver indexer k)
    by (intros k Hk; apply Hothers, in_or_app; auto).
  unfold isEnabled in Hen.
  destruct (gomap.get (Annotations object) ENABLED_ANNOTATION) as [value |] eqn:Hval;
    [| discriminate].
  set (d1 := {| Namespace := Namespace object; Name := Name object;
                Annotations :=
                  Some (<[REPLICAS_MEMORY_ANNOTATION := strconv.Itoa replicas]> m);
                Replicas := Some 0 |}).
  set (c1 := {| objects := <[(Namespace object, Name object) := d1]> (objects c);
                replies := tail (replies c) |}).
  assert (Hd1 : objects c1 !! (Namespace object, Name object) = Some d1)
    by apply lookup_insert_eq.
  assert (Hdown : ToggleDeployment c (Namespace object) (Name object) DISABLED
                  = (Ok tt, c1)).
  { apply (ToggleDeployment_suspend_accepted c _ _ d replicas m Hd Hr); [lia | exact Hm |].
    rewrite Hrep. auto. }
  assert (Hup : ToggleDeployment c1 (Namespace object) (Name object) ENABLED
                = (Ok tt,
                   {| objects :=
                        <[(Namespace object, Name object) :=
                            {| Namespace := Namespace object; Name := Name object;
                               Annotations :=
                                 gomap.del (Annotations d1) REPLICAS_MEMORY_ANNOTATION;
                               Replicas := Some (int32 replicas) |}]> (objects c1);
                      replies := tail (replies c1) |})).
  { apply (ToggleDeployment_resume_accepted c1 _ _ d1 (strconv.Itoa replicas) replicas Hd1).
    - reflexivity.
    - simpl. apply lookup_insert_eq.
    - apply Atoi_Itoa. unfold strconv.minInt64, strconv.maxInt64. lia.
    - simpl. rewrite Hrep. auto. }
  eexists c1, _. split; [| split; [exact Hd1 | split]].
  - unfold loopIteration. rewrite Hkeys, loopKeys_passes_over by exact Hbefore.
    simpl loopKeys. rewrite Hkey, Hval, Hen. cbn [negb]. rewrite Hparse, Hin, Hdown.
    rewrite loopKeys_all_passed_over by exact Hafter. reflexivity.
  - unfold loopIteration. rewrite Hkeys, loopKeys_passes_over by exact Hbefore.
    simpl loopKeys. rewrite Hkey, Hval, Hen. cbn [negb]. rewrite Hparse, Hout, Hup.
    rewrite loopKeys_all_passed_over by exact Hafter. reflexivity.
  - simpl. rewrite lookup_insert_eq, delete_insert_eq, int32_in_range by lia.
    reflexivity.
Qed.

Lemma tick_suspends_then_resumes_witness :
  let web := scheduled "web" "22:00-06:00" 3 in
  let db := plain "db" 1 in
  let m := <[ENABLED_ANNOTATION := "true"%string]>
             {[ SCHEDULE_ANNOTATION := "22:00-06:00"%string ]} in
  exists c1 c2,
    fst (loopIteration (time.at_ 23 30) (mirror [db; web]) (cluster [db; web] []))
      = (Ok tt, c1) /\
    objects c1 !! (Namespace web, Name web) =
      Some {| Namespace := Namespace web; Name := Name web;
              Annotations := Some (<[REPLICAS_MEMORY_ANNOTATION := strconv.Itoa 3]> m);
              Replicas := Some 0 |} /\
    fst (loopIteration (time.at_ 7 0) (mirror [db; web]) c1) = (Ok tt, c2) /\
    objects c2 !! (Namespace web, Name web) =
      Some {| Namespace := Namespace web; Name := Name web;
              Annotations := Some (delete REPLICAS_MEMORY_ANNOTATION m);
              Replicas := Some 3 |}.
Proof.
  intros web db m.
  apply (tick_suspends_then_resumes (time.at_ 23 30) (time.at_ 7 0)
           (mirror [db; web]) ["default/db"%string] [] "default/web" web
           {| Start := time.at_ 22 0; End := time.at_ 6 0 |}
           (cluster [db; web] []) web 3 m);
    try reflexivity.
  - intros other [<- | []]. right. exists db. split; reflexivity.
  - lia.
Defined.

(** ** More about the manual control surface *)

(** X21. The handlers change nothing in the cluster but the workload the
    request names, and nothing at all when the request has no body, a body
    that does not decode, or when the client configuration fails to load. *)
Theorem scale_handlers_touch_only_named_workload
    (configErr : option error) (world : Clientset) (r : service.Request)
    (w : service.ResponseWriter) (key : string * string) :
  (forall d, service.Body r = service.Decoded d -> configErr = None ->
             key <> (service.jsonNamespace d, service.jsonName d)) ->
  objects (snd (service.scaleDown configErr world r w)) !! key = objects world !! key /\
  objects (snd (service.scaleUp configErr world r w)) !! key = objects world !! key.
Proof.
  intros Hkey. unfold service.scaleDown, service.scaleUp.
  destruct (service.Body r) as [| err | d]; [auto | auto |].
  destruct configErr as [err |]; [auto |].
  specialize (Hkey d eq_refl eq_refl).
  pose proof (ToggleDeployment_frame world _ _ DISABLED key Hkey) as Hdown.
  pose proof (ToggleDeployment_frame world _ _ ENABLED key Hkey) as Hup.
  split.
  - destruct (ToggleDeployment world _ _ DISABLED) as [[[] | e | p] world'];
      exact Hdown.
  - destruct (ToggleDeployment world _ _ ENABLED) as [[[] | e | p] world'];
      exact Hup.
Qed.

Lemma scale_handlers_touch_only_named_workload_witness :
  let world := cluster [plain "web" 3; plain "db" 1] [] in
  objects (snd (service.scaleDown None world (post "default" "web") service.newResponse))
    !! ("default"%string, "db"%string) = objects world !! ("default"%string, "db"%string) /\
  objects (snd (service.scaleUp None world (post "default" "web") service.newResponse))
    !! ("default"%string, "db"%string) = objects world !! ("default"%string, "db"%string).
Proof.
  intros world.
  apply (scale_handlers_touch_only_named_workload None world (post "default" "web")
           service.newResponse ("default"%string, "db"%string)).
  intros d Hd _. inversion Hd. discriminate.
Defined.

(** X22. A request whose method is not POST is answered with status 501, and
    the toggle is performed all the same: the cluster is left as the call
    of [ToggleDeployment] for the named workload leaves it. *)
Theorem scale_handlers_toggle_on_any_method
    (world : Clientset) (method namespace name : string) :
  String.eqb method "POST" = false ->
  let r := {| service.Method := method;
              service.Body := service.Decoded {| service.jsonNamespace := namespace;
                                                 service.jsonName := name |} |} in
  (let '(_, w, world') := service.scaleDown None world r service.newResponse in
   service.status w = Some 501 /\
   world' = snd (ToggleDeployment world namespace name DISABLED)) /\
  (let '(_, w, world') := service.scaleUp None world r service.newResponse in
   service.status w = Some 501 /\
   world' = snd (ToggleDeployment world namespace name ENABLED)).
Proof.
  intros Hmethod r. unfold service.scaleDown, service.scaleUp. subst r.
  cbn [service.Method service.Body service.jsonNamespace service.jsonName].
  rewrite Hmethod. cbn [negb].
  split.
  - destruct (ToggleDeployment world namespace name DISABLED) as [[[] | e | p] world'];
      split; reflexivity.
  - destruct (ToggleDeployment world namespace name ENABLED) as [[[] | e | p] world'];
      split; reflexivity.
Qed.

Lemma scale_handlers_toggle_on_any_method_witness :
  let world := cluster [plain "web" 3] [] in
  let r := {| service.Method := "GET";
              service.Body := service.Decoded {| service.jsonNamespace := "default";
                                                 service.jsonName := "web" |} |} in
  let '(_, w, world') := service.scaleDown None world r service.newResponse in
  service.status w = Some 501 /\
  world' = snd (ToggleDeployment world "default" "web" DISABLED).
Proof.
  apply (proj1 (scale_handlers_toggle_on_any_method
                  (cluster [plain "web" 3] []) "GET" "default" "web" eq_refl)).
Defined.

(** The readiness handler answers from the state it leaves: 200 and "OK"
    when the service is ready after the request, 503 and "NOT OK" when it
    is not; and only a POST to /readiness/ready or /readiness/notready
    changes the state. *)
Theorem readinessHandler_answers_its_state
    (serverReady : bool) (method path : string) :
  let '(serverReady', w) :=
    service.readinessHandler serverReady method path service.newResponse in
  service.status w = Some (if serverReady' then 200 else 503) /\
  service.body w = [service.Text (if serverReady' then "OK" else "NOT OK")] /\
  (serverReady' <> serverReady ->
   method = "POST"%string /\
   (path = "/readiness/ready"%string \/ path = "/readiness/notready"%string)).
Proof.
  unfold service.readinessHandler.
  destruct (String.eqb_spec method "POST") as [-> | Hm].
  - destruct (String.eqb_spec path "/readiness/ready") as [-> | Hr].
    + repeat split; auto.
    + destruct (String.eqb_spec path "/readiness/notready") as [-> | Hn].
      * repeat split; auto.
      * destruct serverReady; repeat split; congruence.
  - destruct serverReady; repeat split; congruence.
Qed.

(** X23. Readiness is sticky. While the service is not ready, every
    readiness request is answered 503 and it stays not ready, the
    termination signal included, until a POST to /readiness/ready; while
    it is ready, every readiness request is answered 200 and it stays
    ready until a POST to /readiness/notready or the termination
    signal. *)
Theorem readiness_is_sticky
    (serverReady : bool) (events : list service.ReadinessEvent) :
  Forall (fun event =>
            event <> service.ReadinessRequest "POST"
                       (if serverReady then "/readiness/notready"
                        else "/readiness/ready") /\
            (serverReady = true -> event <> service.TerminationSignal)) events ->
  fst (service.serveReadiness serverReady events) = serverReady /\
  Forall (fun w => service.status w = Some (if serverReady then 200 else 503))
         (snd (service.serveReadiness serverReady events)).
Proof.
  induction 1 as [| event events [Hpost Hsignal] _ IH]; [simpl; auto |].
  destruct event as [method path |].
  - assert (Hsame : service.readinessHandler serverReady method path service.newResponse
                    = (serverReady,
                       snd (service.readinessHandler serverReady method path
                              service.newResponse)) /\
                    service.status
                      (snd (service.readinessHandler serverReady method path
                              service.newResponse))
                    = Some (if serverReady then 200 else 503)).
    { unfold service.readinessHandler.
      destruct (String.eqb_spec method "POST") as [-> | Hm].
      - destruct (String.eqb_spec path "/readiness/ready") as [-> | Hr].
        + destruct serverReady; [split; reflexivity | congruence].
        + destruct (String.eqb_spec path "/readiness/notready") as [-> | Hn].
          * destruct serverReady; [congruence | split; reflexivity].
          * destruct serverReady; split; reflexivity.
      - destruct serverReady; split; reflexivity. }
    destruct Hsame as [Hstate Hstatus].
    destruct IH as (IHstate & IHall).
    cbn [service.serveReadiness]. rewrite Hstate.
    destruct (service.serveReadiness serverReady events) as [final ws].
    simpl in *. split; auto.
  - destruct serverReady; [exfalso; apply Hsignal; reflexivity |].
    cbn [service.serveReadiness]. exact IH.
Qed.

Lemma readiness_is_sticky_witness :
  let events := [service.ReadinessRequest "GET" "/readiness";
                 service.TerminationSignal;
                 service.ReadinessRequest "POST" "/readiness/notready";
                 service.ReadinessRequest "GET" "/readiness/ready"] in
  fst (service.serveReadiness false events) = false /\
  Forall (fun w => service.status w = Some 503)
         (snd (service.serveReadiness false events)).
Proof.
  intros events.
  apply (readiness_is_sticky false events).
  repeat constructor; discriminate.
Defined.

(** ** Witnesses and further facts of the toggle protocol *)

Lemma toggle_round_trip_any_count_witness :
  let c := cluster [plain "web" 250] [Some ReplyConflict] in
  let c1 := snd (ToggleDeployment c "default" "web" DISABLED) in
  let c2 := snd (ToggleDeployment c1 "default" "web" ENABLED) in
  exists d2,
    objects c2 !! ("default"%string, "web"%string) = Some d2 /\
    Replicas d2 = Some 250 /\
    gomap.get (Annotations d2) REPLICAS_MEMORY_ANNOTATION = None.
Proof.
  intros c c1 c2.
  apply (toggle_round_trip_any_count c c1 c2 "default" "web" (plain "web" 250) 250);
    try reflexivity; lia.
Defined.

Lemma suspend_twice_witness :
  let c := cluster [plain "web" 3] [] in
  let c1 := snd (ToggleDeployment c "default" "web" DISABLED) in
  Replicas
    {| Namespace := "default"; Name := "web";
       Annotations := Some {[ REPLICAS_MEMORY_ANNOTATION := "3"%string ]};
       Replicas := Some 0 |} = Some 0 /\
  ToggleDeployment c1 "default" "web" DISABLED = (Ok tt, c1).
Proof.
  intros c c1.
  apply (suspend_twice c c1 "default" "web"
           {| Namespace := "default"; Name := "web";
              Annotations := Some {[ REPLICAS_MEMORY_ANNOTATION := "3"%string ]};
              Replicas := Some 0 |});
    reflexivity.
Defined.

Lemma resume_running_is_noop_witness :
  let c := cluster [plain "web" 3] [Some (ReplyFailure "down")] in
  ToggleDeployment c "default" "web" ENABLED = (Ok tt, c).
Proof.
  intros c.
  apply (resume_running_is_noop c "default" "web" (plain "web" 3) 3 ∅);
    try reflexivity; lia.
Defined.

(** X24. A successful resume of a suspended workload that carries a memorized
    count stores it with that count, as read by [strconv.Atoi] and
    converted to [int32], and without the replicas-memory annotation; its
    other annotations are unchanged. *)
Theorem resume_restores_the_memorized_count
    (c c1 : Clientset) (namespace name : string) (d : Deployment) (value : string) :
  objects c !! (namespace, name) = Some d ->
  Replicas d = Some 0 ->
  gomap.get (Annotations d) REPLICAS_MEMORY_ANNOTATION = Some value ->
  ToggleDeployment c namespace name ENABLED = (Ok tt, c1) ->
  exists i,
    strconv.Atoi value = Ok i /\
    objects c1 !! (namespace, name) =
      Some {| Namespace := namespace; Name := name;
              Annotations := gomap.del (Annotations d) REPLICAS_MEMORY_ANNOTATION;
              Replicas := Some (int32 i) |}.
Proof.
  intros Hd Hr Hv Hup.
  apply ToggleDeployment_Ok_inv in Hup as (c0 & Hobj0 & Hup).
  rewrite <- Hobj0 in Hd.
  destruct (toggleAttempt_resume_Ok _ _ _ _ _ Hd Hup)
    as [(r & Hr1 & Hnz & _) | [(_ & value' & i & Hv' & Hi & Hobj1) | (_ & Hnone & _)]].
  - congruence.
  - assert (value' = value) as -> by congruence.
    exists i. split; [exact Hi |]. rewrite Hobj1. apply lookup_insert_eq.
  - congruence.
Qed.

Lemma resume_restores_the_memorized_count_witness :
  let asleep := {| Namespace := "default"; Name := "web";
                   Annotations := Some (<[REPLICAS_MEMORY_ANNOTATION := "7"%string]>
                                          {[ "team"%string := "payments"%string ]});
                   Replicas := Some 0 |} in
  let c := cluster [asleep] [] in
  let c1 := snd (ToggleDeployment c "default" "web" ENABLED) in
  exists i,
    strconv.Atoi "7" = Ok i /\
    objects c1 !! ("default"%string, "web"%string) =
      Some {| Namespace := "default"; Name := "web";
              Annotations := gomap.del (Annotations asleep) REPLICAS_MEMORY_ANNOTATION;
              Replicas := Some (int32 i) |}.
Proof.
  intros asleep c c1.
  apply (resume_restores_the_memorized_count c c1 "default" "web" asleep "7");
    reflexivity.
Defined.




(** ** The enabled check of the loop *)

Lemma lowerByte_letter (c lower upper : ascii) :
  (lower, upper) = ("t", "T")%char \/ (lower, upper) = ("r", "R")%char \/
  (lower, upper) = ("u", "U")%char \/ (lower, upper) = ("e", "E")%char ->
  strings.lowerByte c = lower <-> c = lower \/ c = upper.
Proof.
  intros [H | [H | [H | H]]]; inversion H; subst; clear H;
    destruct c as [[] [] [] [] [] [] [] []];
    vm_compute; (split; [intros H; try discriminate H; auto
                        | intros [H | H]; try discriminate H; reflexivity]).
Qed.

(** The test on scheduler.enabled holds exactly for the word "true" in
    any mix of upper and lower case. *)
Lemma isEnabled_iff (object : Deployment) :
  isEnabled object = true <->
  exists c1 c2 c3 c4,
    gomap.get (Annotations object) ENABLED_ANNOTATION
      = Some (String c1 (String c2 (String c3 (String c4 EmptyString)))) /\
    (c1 = "t" \/ c1 = "T")%char /\ (c2 = "r" \/ c2 = "R")%char /\
    (c3 = "u" \/ c3 = "U")%char /\ (c4 = "e" \/ c4 = "E")%char.
Proof.
  unfold isEnabled.
  destruct (gomap.get (Annotations object) ENABLED_ANNOTATION) as [value |].
  2:{ split; [discriminate | intros (? & ? & ? & ? & H & _); discriminate]. }
  rewrite String.eqb_eq. split.
  - destruct value as [| c1 [| c2 [| c3 [| c4 [| c5 rest]]]]]; simpl;
      intros H; try discriminate H.
    injection H as H1 H2 H3 H4.
    exists c1, c2, c3, c4. split; [reflexivity |].
    split; [apply (lowerByte_letter c1 "t" "T"); auto |].
    split; [apply (lowerByte_letter c2 "r" "R"); auto |].
    split; [apply (lowerByte_letter c3 "u" "U"); auto 6 |].
    apply (lowerByte_letter c4 "e" "E"); auto 6.
  - intros (c1 & c2 & c3 & c4 & Hv & H1 & H2 & H3 & H4).
    inversion Hv; subst value. simpl.
    apply (lowerByte_letter c1 "t" "T") in H1; [| auto].
    apply (lowerByte_letter c2 "r" "R") in H2; [| auto].
    apply (lowerByte_letter c3 "u" "U") in H3; [| auto 6].
    apply (lowerByte_letter c4 "e" "E") in H4; [| auto 6].
    rewrite H1, H2, H3, H4. reflexivity.
Qed.

(** A workload that is not enabled is passed over without a trace: the
    tick goes on with the next key, the cluster and the log as they
    were. *)
Theorem tick_skips_workload_not_enabled
    now indexer (key : string) (keys : list string) (object : Deployment) c log :
  GetByKey indexer key = LookupFound object ->
  isEnabled object = false ->
  loopKeys now indexer (key :: keys) c log = loopKeys now indexer keys c log.
Proof.
  intros Hkey Hen. unfold isEnabled in Hen. simpl. rewrite Hkey.
  destruct (gomap.get (Annotations object) ENABLED_ANNOTATION) as [value |];
    [| reflexivity].
  rewrite Hen. reflexivity.
Qed.

(** X26. The loop takes a workload as enabled exactly when its
    scheduler.enabled annotation is the word "true" in any mix of upper
    and lower case: it then logs that it checks the workload before
    anything else, and for any other value, and for an absent annotation,
    it goes on with the next key, the cluster and the log as they were. *)
Theorem tick_checks_exactly_the_enabled
    now indexer (key : string) (object : Deployment) c log :
  GetByKey indexer key = LookupFound object ->
  ((exists value,
      gomap.get (Annotations object) ENABLED_ANNOTATION = Some value /\
      spelledTrue value) ->
   exists suffix,
     snd (loopKeys now indexer [key] c log) = log ++ LogChecking key :: suffix) /\
  (~ (exists value,
        gomap.get (Annotations object) ENABLED_ANNOTATION = Some value /\
        spelledTrue value) ->
   forall keys,
     loopKeys now indexer (key :: keys) c log = loopKeys now indexer keys c log).
Proof.
  intros Hkey.
  assert (Hiff : isEnabled object = true <->
                 exists value,
                   gomap.get (Annotations object) ENABLED_ANNOTATION = Some value /\
                   spelledTrue value).
  { rewrite isEnabled_iff. unfold spelledTrue. split.
    - intros (c1 & c2 & c3 & c4 & Hv & Hc). eexists. split; [exact Hv |].
      exists c1, c2, c3, c4. auto.
    - intros (value & Hv & c1 & c2 & c3 & c4 & -> & Hc).
      exists c1, c2, c3, c4. auto. }
  split.
  - intros Hspelled. apply Hiff in Hspelled. unfold isEnabled in Hspelled.
    destruct (gomap.get (Annotations object) ENABLED_ANNOTATION) as [value |] eqn:Hval;
      [| discriminate].
    simpl loopKeys. rewrite Hkey, Hval, Hspelled. cbn [negb].
    destruct (parseScheduleAnnotation (Annotations object)) as [schedule | err | p].
    + destruct (InRangeNow schedule now).
      * destruct (ToggleDeployment c (Namespace object) (Name object) DISABLED)
          as [[[] | err | p] c1]; simpl;
          [exists [] | exists [LogError err] | exists []];
          rewrite <- ?app_assoc; reflexivity.
      * destruct (ToggleDeployment c (Namespace object) (Name object) ENABLED)
          as [[[] | err | p] c1]; simpl;
          [exists [] | exists [LogError err] | exists []];
          rewrite <- ?app_assoc; reflexivity.
    + simpl. exists [LogError err]. rewrite <- app_assoc. reflexivity.
    + simpl. exists []. reflexivity.
  - intros Hnot keys.
    assert (Hen : isEnabled object = false).
    { destruct (isEnabled object) eqn:Hen; [| reflexivity].
      exfalso. apply Hnot, Hiff. reflexivity. }
    unfold isEnabled in Hen. simpl. rewrite Hkey.
    destruct (gomap.get (Annotations object) ENABLED_ANNOTATION) as [value |];
      [| reflexivity].
    rewrite Hen. reflexivity.
Qed.

Lemma tick_checks_exactly_the_enabled_witness :
  let shouting := {| Namespace := "default"; Name := "web";
                     Annotations := Some (<[ENABLED_ANNOTATION := "TRUE"%string]>
                                            {[ SCHEDULE_ANNOTATION := "22:00-06:00"%string ]});
                     Replicas := Some 3 |} in
  exists suffix,
    snd (loopKeys (time.at_ 12 0) (mirror [shouting]) ["default/web"%string]
           (cluster [shouting] []) [])
    = [] ++ LogChecking "default/web" :: suffix.
Proof.
  intros shouting.
  apply (proj1 (tick_checks_exactly_the_enabled (time.at_ 12 0) (mirror [shouting])
                  "default/web" shouting (cluster [shouting] []) [] eq_refl)).
  exists "TRUE"%string. split; [reflexivity |].
  exists "T"%char, "R"%char, "U"%char, "E"%char. repeat split; auto.
Defined.

